(** * Device-report scripts: a shallow embedding and its properties

    The repository holds four independent scripts:
    - [arista-eos-port-utilization.py]   (module [Arista])
    - [cisco-ios-xe-bgp-status.py]       (module [Cisco])
    - [juniper-junos-ospf-status.py]     (module [Juniper])
    - [dns-domain-checker.py]            (module [Dns])

    Each script is translated function by function.  Python values decoded
    from JSON are the inductive [pyval]; a Python [float] is an IEEE-754
    binary64 number, taken from the standard library's [SpecFloat] with
    [prec = 53] and [emax = 1024]; a Python exception is a value of [exn]
    and a computation that may raise returns [result].  The device, the
    SSH session, the NETCONF session and the resolver are collaborators:
    they appear as the outcomes of their calls.  The built-ins that read
    numbers from text and the [re] module are parameters.

    The file has the Python layer first, then the four scripts, then
    example collaborators and the vocabulary of the statements
    ([AristaSpec], [AristaReportSpec], [CiscoSpec], [JuniperSpec],
    [DnsSpec], [Protocol]), and last the facts: [DnsFacts],
    [JuniperFacts], [CiscoFacts], [FloatFacts] and [AristaFacts], the
    statements that span two scripts, and then, script by script,
    [AristaReportFacts], [CiscoReportFacts], [JuniperReportFacts],
    [DnsOutputFacts] and [ProtocolFacts]. *)

From Stdlib Require Import ZArith List String Ascii Bool Lia QArith.
From Stdlib Require Import Permutation Sorted.
From Stdlib Require Import Floats.SpecFloat.
Import ListNotations.

Local Open Scope string_scope.
Local Open Scope Z_scope.

(* ================================================================== *)
(** * Python exceptions and results *)
(* ================================================================== *)

(** The exception classes the scripts name in an [except] clause or that a
    built-in operation used by them raises.  [OtherError] stands for any
    other subclass of [Exception] a collaborator may raise (a socket
    timeout, an [SSHException], an RPC error, ...). *)
Inductive exn_kind : Type :=
  | KeyError
  | IndexError
  | TypeError
  | ValueError
  | AttributeError
  | OverflowError
  | ZeroDivisionError
  | RuntimeError
  | NoValidConnectionsError     (* paramiko.ssh_exception *)
  | AuthenticationException     (* paramiko.ssh_exception *)
  | GaiError                    (* socket.gaierror *)
  | OtherError.

Definition exn_kind_eqb (a b : exn_kind) : bool :=
  match a, b with
  | KeyError, KeyError | IndexError, IndexError | TypeError, TypeError
  | ValueError, ValueError | AttributeError, AttributeError
  | OverflowError, OverflowError | ZeroDivisionError, ZeroDivisionError
  | RuntimeError, RuntimeError
  | NoValidConnectionsError, NoValidConnectionsError
  | AuthenticationException, AuthenticationException
  | GaiError, GaiError | OtherError, OtherError => true
  | _, _ => false
  end.

(** An exception: its class and [str(e)]. *)
Record exn : Type := mk_exn { exn_class : exn_kind; exn_str : string }.

Inductive result (A : Type) : Type :=
  | Ok (a : A)
  | Raise (e : exn).
Arguments Ok {A} a.
Arguments Raise {A} e.

Definition bind {A B} (r : result A) (k : A -> result B) : result B :=
  match r with
  | Ok a => k a
  | Raise e => Raise e
  end.

Notation "x <- r ;; k" := (bind r (fun x => k))
  (at level 61, r at next level, right associativity).

(** [isinstance(e, (K1, K2, ...))] for the flat classes above. *)
Definition is_instance (ks : list exn_kind) (e : exn) : bool :=
  existsb (exn_kind_eqb (exn_class e)) ks.

(** [try: x = r  except (K1, K2, ...): pass], with [x] preset to [dflt]. *)
Definition try_default {A} (ks : list exn_kind) (dflt : A) (r : result A)
  : result A :=
  match r with
  | Ok a => Ok a
  | Raise e => if is_instance ks e then Ok dflt else Raise e
  end.

(** What a run of a script leaves behind: the documents printed on the
    primary stream, the lines on the diagnostic stream, the exit code. *)
Record process (doc : Type) : Type := mk_process {
  stdout : list doc;
  stderr : list string;
  exit_code : Z
}.
Arguments mk_process {doc}.
Arguments stdout {doc}.
Arguments stderr {doc}.
Arguments exit_code {doc}.

(* ================================================================== *)
(** * Python strings *)
(* ================================================================== *)

(** [needle in hay] on [str]: substring test. *)
Fixpoint str_in (needle hay : string) : bool :=
  prefix needle hay ||
  match hay with
  | EmptyString => false
  | String _ hay' => str_in needle hay'
  end.

(** [str.isspace] on the ASCII range. *)
Definition is_space (c : ascii) : bool :=
  let n := nat_of_ascii c in
  ((9 <=? n) && (n <=? 13) || (28 <=? n) && (n <=? 32))%nat.

Fixpoint lstrip (s : string) : string :=
  match s with
  | String c s' => if is_space c then lstrip s' else s
  | EmptyString => EmptyString
  end.

Fixpoint rstrip (s : string) : string :=
  match s with
  | EmptyString => EmptyString
  | String c s' =>
      match rstrip s' with
      | EmptyString => if is_space c then EmptyString else String c EmptyString
      | t => String c t
      end
  end.

(** [s.strip()] *)
Definition strip (s : string) : string := rstrip (lstrip s).

Fixpoint drop (n : nat) (s : string) : string :=
  match n, s with
  | O, _ => s
  | S n', String _ s' => drop n' s'
  | S _, EmptyString => EmptyString
  end.

(** [s.replace(old, new)] for a non-empty [old]: the occurrences are
    replaced left to right, without overlap.  [fuel] bounds the number of
    characters still to scan. *)
Fixpoint replace_fuel (fuel : nat) (old new s : string) : string :=
  match fuel with
  | O => s
  | S fuel' =>
      match s with
      | EmptyString => EmptyString
      | String c s' =>
          if prefix old s
          then new ++ replace_fuel fuel' old new (drop (String.length old) s)
          else String c (replace_fuel fuel' old new s')
      end
  end.

Definition replace (old new s : string) : string :=
  replace_fuel (String.length s) old new s.

(* ================================================================== *)
(** * Python numbers *)
(* ================================================================== *)

(** A Python [float] is a binary64 number. *)
Definition float := spec_float.
Definition prec := 53.
Definition emax := 1024.

Definition fdiv : float -> float -> float := SFdiv prec emax.
Definition fmul : float -> float -> float := SFmul prec emax.

(** The number an [int] or a [float] expression evaluates to. *)
Inductive pynum : Type :=
  | PInt (n : Z)
  | PFloat (f : float).

(** ** Exact values and comparisons

    Python compares numbers by their exact mathematical value, also
    between an [int] and a [float]; a NaN compares false with
    everything. *)
Inductive xreal : Type :=
  | XNaN
  | XNegInf
  | XFin (q : Q)
  | XPosInf.

Definition finite_value (s : bool) (m : positive) (e : Z) : Q :=
  let n := if s then Zneg m else Zpos m in
  match e with
  | Z0 => n # 1
  | Zpos p => (n * Zpos (2 ^ p)) # 1
  | Zneg p => n # (2 ^ p)
  end.

Definition float_value (f : float) : xreal :=
  match f with
  | S754_zero _ => XFin 0
  | S754_infinity s => if s then XNegInf else XPosInf
  | S754_nan => XNaN
  | S754_finite s m e => XFin (finite_value s m e)
  end.

Definition value (x : pynum) : xreal :=
  match x with
  | PInt n => XFin (n # 1)
  | PFloat f => float_value f
  end.

Definition xlt (a b : xreal) : bool :=
  match a, b with
  | XNaN, _ | _, XNaN => false
  | XNegInf, XNegInf => false
  | XNegInf, _ => true
  | _, XNegInf => false
  | XPosInf, _ => false
  | XFin _, XPosInf => true
  | XFin p, XFin q => negb (Qle_bool q p)
  end.

Definition xeq (a b : xreal) : bool :=
  match a, b with
  | XNegInf, XNegInf | XPosInf, XPosInf => true
  | XFin p, XFin q => Qeq_bool p q
  | _, _ => false
  end.

(** [a < b], [a > b], [a <= b], [a >= b], [a == b] on numbers. *)
Definition py_lt (a b : pynum) : bool := xlt (value a) (value b).
Definition py_gt (a b : pynum) : bool := xlt (value b) (value a).
Definition py_le (a b : pynum) : bool :=
  xlt (value a) (value b) || xeq (value a) (value b).
Definition py_ge (a b : pynum) : bool := py_le b a.
Definition py_eq (a b : pynum) : bool := xeq (value a) (value b).

(** [max(a, b)]: the first argument unless the second is greater. *)
Definition py_max (a b : pynum) : pynum := if py_gt b a then b else a.

(** ** Conversions *)

(** [float(n)] for an [int]: the nearest binary64 number, ties to even;
    an [int] beyond the range raises [OverflowError]. *)
Definition float_of_int (n : Z) : result float :=
  match binary_normalize prec emax n 0 false with
  | S754_infinity _ =>
      Raise (mk_exn OverflowError "int too large to convert to float")
  | f => Ok f
  end.

(** The operand of a [float] operation: an [int] is converted first. *)
Definition as_float (x : pynum) : result float :=
  match x with
  | PInt n => float_of_int n
  | PFloat f => Ok f
  end.

(** [int(f)] for a [float]: truncation towards zero. *)
Definition int_of_float (f : float) : result Z :=
  match f with
  | S754_zero _ => Ok 0
  | S754_nan => Raise (mk_exn ValueError "cannot convert float NaN to integer")
  | S754_infinity _ =>
      Raise (mk_exn OverflowError "cannot convert float infinity to integer")
  | S754_finite s m e =>
      let a := match e with
               | Z0 => Zpos m
               | Zpos p => Zpos m * Zpos (2 ^ p)
               | Zneg p => Zpos m / Zpos (2 ^ p)
               end in
      Ok (if s then - a else a)
  end.

(** ** Arithmetic *)

Definition is_zero (f : float) : bool :=
  match f with S754_zero _ => true | _ => false end.

(** The mantissa and sign of an [int] as an unrounded binary number. *)
Definition raw_of_int (n : Z) : float :=
  match n with
  | Z0 => S754_zero false
  | Zpos p => S754_finite false p 0
  | Zneg p => S754_finite true p 0
  end.

(** [a / b], true division.  Two [int]s give the correctly rounded
    quotient; otherwise the operands are converted to [float] and divided
    as IEEE-754 prescribes.  A zero divisor raises. *)
Definition py_truediv (a b : pynum) : result pynum :=
  match a, b with
  | PInt x, PInt y =>
      if y =? 0 then Raise (mk_exn ZeroDivisionError "division by zero")
      else
        match x with
        | Z0 => Ok (PFloat (S754_zero (y <? 0)))
        | _ =>
            match fdiv (raw_of_int x) (raw_of_int y) with
            | S754_infinity _ =>
                Raise (mk_exn OverflowError
                         "integer division result too large for a float")
            | q => Ok (PFloat q)
            end
        end
  | _, _ =>
      x <- as_float a ;;
      y <- as_float b ;;
      if is_zero y
      then Raise (mk_exn ZeroDivisionError "float division by zero")
      else Ok (PFloat (fdiv x y))
  end.

(** [a * b] *)
Definition py_mul (a b : pynum) : result pynum :=
  match a, b with
  | PInt x, PInt y => Ok (PInt (x * y))
  | _, _ =>
      x <- as_float a ;;
      y <- as_float b ;;
      Ok (PFloat (fmul x y))
  end.

(** ** [round(x, 2)]

    On an [int] it is the identity.  On a [float], CPython converts the
    exact binary value to the nearest decimal with two digits after the
    point, ties to even, and reads that decimal back as the nearest
    binary64 number; zeros, infinities and NaN are returned unchanged. *)

(** Nearest integer to [n / d], ties to even, for [0 <= n] and [0 < d]. *)
Definition div_half_even (n d : Z) : Z :=
  let q := n / d in
  let r := n mod d in
  match 2 * r ?= d with
  | Lt => q
  | Gt => q + 1
  | Eq => if Z.even q then q else q + 1
  end.

(** The number of hundredths nearest to [m * 2^e]. *)
Definition hundredths (m : positive) (e : Z) : Z :=
  match e with
  | Z0 => Zpos m * 100
  | Zpos p => Zpos m * Zpos (2 ^ p) * 100
  | Zneg p => div_half_even (Zpos m * 100) (Zpos (2 ^ p))
  end.

Definition round2_float (f : float) : float :=
  match f with
  | S754_finite s m e =>
      match hundredths m e with
      | Zpos h => fdiv (S754_finite s h 0) (S754_finite false 100 0)
      | _ => S754_zero s
      end
  | _ => f
  end.

Definition round2 (x : pynum) : pynum :=
  match x with
  | PInt n => PInt n
  | PFloat f => PFloat (round2_float f)
  end.

(** ** Signs *)

(** [signed s f]: [f] is a zero, a finite number or an infinity of sign
    [s]; in particular it is not a NaN. *)
Definition signed (s : bool) (f : float) : Prop :=
  match f with
  | S754_zero s' | S754_infinity s' | S754_finite s' _ _ => s' = s
  | S754_nan => False
  end.

(** [0 <= x] and [x > 0] *)
Definition nonneg (x : pynum) : Prop := py_le (PInt 0) x = true.
Definition positive_num (x : pynum) : Prop := py_gt x (PInt 0) = true.

(* ================================================================== *)
(** * Python values decoded from JSON *)
(* ================================================================== *)

(** A [dict] keeps its keys in insertion order, which [items()] follows:
    it is an association list, read through [lookup], which returns the
    first binding of a key. *)
#[local] Set Warnings "-register-all".
Inductive pyval : Type :=
  | VNone
  | VBool (b : bool)
  | VInt (n : Z)
  | VFloat (f : float)
  | VStr (s : string)
  | VList (l : list pyval)
  | VDict (d : list (string * pyval)).

Fixpoint lookup {A} (k : string) (d : list (string * A)) : option A :=
  match d with
  | [] => None
  | (k', v) :: d' => if String.eqb k k' then Some v else lookup k d'
  end.

Definition type_name (v : pyval) : string :=
  match v with
  | VNone => "NoneType"
  | VBool _ => "bool"
  | VInt _ => "int"
  | VFloat _ => "float"
  | VStr _ => "str"
  | VList _ => "list"
  | VDict _ => "dict"
  end.

Definition quote (s : string) : string := "'" ++ s ++ "'".

Definition no_attribute (v : pyval) (attr : string) : exn :=
  mk_exn AttributeError
    (quote (type_name v) ++ " object has no attribute " ++ quote attr).

(** [v == s] for a string literal [s]. *)
Definition eq_str (v : pyval) (s : string) : bool :=
  match v with
  | VStr t => String.eqb t s
  | _ => false
  end.

(** [v.get(k, dflt)] *)
Definition py_get (v : pyval) (k : string) (dflt : pyval) : result pyval :=
  match v with
  | VDict d => Ok (match lookup k d with Some x => x | None => dflt end)
  | _ => Raise (no_attribute v "get")
  end.

(** [v.items()] *)
Definition py_items (v : pyval) : result (list (string * pyval)) :=
  match v with
  | VDict d => Ok d
  | _ => Raise (no_attribute v "items")
  end.

(** [k in v] for a string [k]. *)
Definition py_contains (v : pyval) (k : string) : result bool :=
  match v with
  | VDict d => Ok (match lookup k d with Some _ => true | None => false end)
  | VList l => Ok (existsb (fun x => eq_str x k) l)
  | VStr s => Ok (str_in k s)
  | _ => Raise (mk_exn TypeError
                  ("argument of type " ++ quote (type_name v)
                   ++ " is not iterable"))
  end.

(** [v[k]] for a string [k]. *)
Definition py_getitem (v : pyval) (k : string) : result pyval :=
  match v with
  | VDict d =>
      match lookup k d with
      | Some x => Ok x
      | None => Raise (mk_exn KeyError (quote k))
      end
  | VList _ =>
      Raise (mk_exn TypeError
               "list indices must be integers or slices, not str")
  | VStr _ => Raise (mk_exn TypeError "string indices must be integers")
  | _ => Raise (mk_exn TypeError
                  (quote (type_name v) ++ " object is not subscriptable"))
  end.

(** [v[0]] *)
Definition py_getitem0 (v : pyval) : result pyval :=
  match v with
  | VList [] => Raise (mk_exn IndexError "list index out of range")
  | VList (x :: _) => Ok x
  | VStr EmptyString => Raise (mk_exn IndexError "string index out of range")
  | VStr (String c _) => Ok (VStr (String c EmptyString))
  | VDict _ => Raise (mk_exn KeyError "0")
  | _ => Raise (mk_exn TypeError
                  (quote (type_name v) ++ " object is not subscriptable"))
  end.

(** The two conversions from text are Python built-ins, not code of the
    scripts: they are parameters of the development.  Each returns [None]
    where Python raises [ValueError]. *)
Record builtins : Type := mk_builtins {
  float_of_str : string -> option float;
  int_of_str : string -> option Z
}.

Section Conversions.
Variable py : builtins.

(** [float(v)] *)
Definition py_float (v : pyval) : result float :=
  match v with
  | VFloat f => Ok f
  | VInt n => float_of_int n
  | VBool b => Ok (if b then binary_normalize prec emax 1 0 false
                   else S754_zero false)
  | VStr s =>
      match float_of_str py s with
      | Some f => Ok f
      | None => Raise (mk_exn ValueError
                         ("could not convert string to float: " ++ quote s))
      end
  | _ => Raise (mk_exn TypeError
                  ("float() argument must be a string or a real number, not "
                   ++ quote (type_name v)))
  end.

(** [int(v)] *)
Definition py_int (v : pyval) : result Z :=
  match v with
  | VInt n => Ok n
  | VBool b => Ok (if b then 1 else 0)
  | VFloat f => int_of_float f
  | VStr s =>
      match int_of_str py s with
      | Some n => Ok n
      | None => Raise (mk_exn ValueError
                         ("invalid literal for int() with base 10: "
                          ++ quote s))
      end
  | _ => Raise (mk_exn TypeError
                  ("int() argument must be a string, a bytes-like object "
                   ++ "or a real number, not " ++ quote (type_name v)))
  end.
End Conversions.

(* ================================================================== *)
(** * arista-eos-port-utilization.py *)
(* ================================================================== *)

Module Arista.

(** The pyeapi node: [connection.execute(cmd)] returns the decoded JSON
    response or raises; [connection.transport.host] is the host given on
    the command line. *)
Record Connection : Type := mk_connection {
  execute : string -> result pyval;
  transport_host : string
}.

Record DeviceInfo : Type := mk_device_info {
  hostname : pyval;
  platform : pyval;
  model : pyval;
  serial_number : pyval;
  version : pyval
}.

Record InterfaceInfo : Type := mk_interface_info {
  name : string;
  description : pyval;
  status : pyval;
  bandwidth_mbps : pynum;
  input_rate_mbps : pynum;
  output_rate_mbps : pynum;
  input_utilization : pynum;
  output_utilization : pynum;
  input_errors : Z;
  output_errors : Z;
  high_utilization : bool
}.

Record Summary : Type := mk_summary {
  total_interfaces : Z;
  active_interfaces : Z;
  high_utilization_interfaces : Z;
  error_interfaces : Z
}.

Record Report : Type := mk_report {
  device : DeviceInfo;
  timestamp : string;
  interfaces : list InterfaceInfo;
  summary : Summary
}.

(** The counters and the list the loop over the interfaces updates. *)
Record LoopState : Type := mk_loop_state {
  interfaces_so_far : list InterfaceInfo;
  high_utilization_count : Z;
  error_interfaces_count : Z;
  active_interfaces_count : Z
}.

Definition initial_state : LoopState := mk_loop_state [] 0 0 0.

(** What [main] prints on the primary stream. *)
Inductive Document : Type :=
  | ReportDoc (r : Report)
  | ErrorDoc (error : string) (success : bool).

Section Script.
Variable py : builtins.

(** Lines 66-105: the device block.  [version_data.get(k, "Unknown")]
    sits in a [try] that catches [KeyError] and [TypeError]; a missing
    host name is then replaced by the host of the connection. *)
Definition identity_field (version_data : pyval) (key : string)
  : result pyval :=
  try_default [KeyError; TypeError] (VStr "Unknown")
    (py_get version_data key (VStr "Unknown")).

Definition device_identity (version_data : pyval) (host : string)
  : result DeviceInfo :=
  hostname <- identity_field version_data "hostname" ;;
  model <- identity_field version_data "modelName" ;;
  serial_number <- identity_field version_data "serialNumber" ;;
  version <- identity_field version_data "version" ;;
  let hostname := if eq_str hostname "Unknown" then VStr host
                  else hostname in
  Ok {| hostname := hostname;
        platform := VStr "Arista EOS";
        model := model;
        serial_number := serial_number;
        version := version |}.

(** Lines 114-173: [response["result"][0].get(key, {})], an empty
    table on [KeyError] or [IndexError]. *)
Definition side_table (response : pyval) (key : string) : result pyval :=
  try_default [KeyError; IndexError] (VDict [])
    (r <- py_getitem response "result" ;;
     first <- py_getitem0 r ;;
     py_get first key (VDict [])).

(** Lines 188-192 *)
Definition get_description (interface_descriptions : pyval)
    (interface_name : string) : result pyval :=
  try_default [TypeError; KeyError] (VStr "")
    (entry <- py_get interface_descriptions interface_name (VDict []) ;;
     py_get entry "description" (VStr "")).

(** Lines 195-199 *)
Definition get_bandwidth (status : pyval) : result pynum :=
  try_default [TypeError; KeyError; ValueError] (PInt 0)
    (present <- py_contains status "bandwidth" ;;
     if present : bool then
       raw <- py_get status "bandwidth" (VInt 0) ;;
       bits <- py_int py raw ;;
       py_truediv (PInt bits) (PInt 1000000)
     else Ok (PInt 0)).

(** Lines 202-206 *)
Definition get_oper_status (status : pyval) : result pyval :=
  try_default [TypeError; KeyError] (VStr "unknown")
    (py_get status "linkStatus" (VStr "unknown")).

(** Lines 216-224, for [field] one of ["inRate"] and ["outRate"]. *)
Definition get_rate (interface_rates : pyval) (interface_name : string)
    (field : string) : result pynum :=
  try_default [TypeError; KeyError; ValueError] (PInt 0)
    (present <- py_contains interface_rates interface_name ;;
     if present : bool then
       entry <- py_get interface_rates interface_name (VDict []) ;;
       raw <- py_get entry field (VInt 0) ;;
       rate <- py_float py raw ;;
       Ok (PFloat rate)
     else Ok (PInt 0)).

(** Lines 239-247, for [field] one of ["inErrors"] and ["outErrors"]. *)
Definition get_errors (interface_errors : pyval) (interface_name : string)
    (field : string) : result Z :=
  try_default [TypeError; KeyError; ValueError] 0
    (present <- py_contains interface_errors interface_name ;;
     if present : bool then
       entry <- py_get interface_errors interface_name (VDict []) ;;
       raw <- py_get entry field (VInt 0) ;;
       py_int py raw
     else Ok 0).

(** Lines 227-228: [(rate / bandwidth * 100) if bandwidth > 0 else 0] *)
Definition utilization (rate_mbps bandwidth_mbps : pynum) : result pynum :=
  if py_gt bandwidth_mbps (PInt 0)
  then
    ratio <- py_truediv rate_mbps bandwidth_mbps ;;
    py_mul ratio (PInt 100)
  else Ok (PInt 0).

Section Loop.
Variables interface_descriptions interface_rates interface_errors : pyval.
Variable threshold : Z.

Definition count_active (st : LoopState) : LoopState :=
  mk_loop_state (interfaces_so_far st) (high_utilization_count st)
    (error_interfaces_count st) (active_interfaces_count st + 1).

Definition count_high (st : LoopState) : LoopState :=
  mk_loop_state (interfaces_so_far st) (high_utilization_count st + 1)
    (error_interfaces_count st) (active_interfaces_count st).

Definition count_error (st : LoopState) : LoopState :=
  mk_loop_state (interfaces_so_far st) (high_utilization_count st)
    (error_interfaces_count st + 1) (active_interfaces_count st).

Definition append (info : InterfaceInfo) (st : LoopState) : LoopState :=
  mk_loop_state (interfaces_so_far st ++ [info])
    (high_utilization_count st) (error_interfaces_count st)
    (active_interfaces_count st).

(** Lines 181-270: one turn of the loop.  The body is a [try] whose
    [except Exception] only logs: an exception ends the turn and keeps
    whatever the counters were at that point. *)
Definition process_interface (st : LoopState)
    (item : string * pyval) : LoopState :=
  let '(interface_name, status) := item in
  if negb (prefix "Ethernet" interface_name) then st else
  match get_description interface_descriptions interface_name with
  | Raise _ => st
  | Ok description =>
  match get_bandwidth status with
  | Raise _ => st
  | Ok bandwidth_mbps =>
  match get_oper_status status with
  | Raise _ => st
  | Ok oper_status =>
  let st := if eq_str oper_status "up" then count_active st else st in
  match get_rate interface_rates interface_name "inRate" with
  | Raise _ => st
  | Ok input_rate_mbps =>
  match get_rate interface_rates interface_name "outRate" with
  | Raise _ => st
  | Ok output_rate_mbps =>
  match utilization input_rate_mbps bandwidth_mbps with
  | Raise _ => st
  | Ok input_utilization =>
  match utilization output_rate_mbps bandwidth_mbps with
  | Raise _ => st
  | Ok output_utilization =>
  let high_utilization :=
    py_gt input_utilization (PInt threshold)
    || py_gt output_utilization (PInt threshold) in
  let st := if high_utilization then count_high st else st in
  match get_errors interface_errors interface_name "inErrors" with
  | Raise _ => st
  | Ok input_errors =>
  match get_errors interface_errors interface_name "outErrors" with
  | Raise _ => st
  | Ok output_errors =>
  let st := if (input_errors >? 0) || (output_errors >? 0)
            then count_error st else st in
  append
    {| name := interface_name;
       description := description;
       status := oper_status;
       bandwidth_mbps := bandwidth_mbps;
       input_rate_mbps := round2 input_rate_mbps;
       output_rate_mbps := round2 output_rate_mbps;
       input_utilization := round2 input_utilization;
       output_utilization := round2 output_utilization;
       input_errors := input_errors;
       output_errors := output_errors;
       high_utilization := high_utilization |} st
  end end end end end end end end end.

Definition process_interfaces (items : list (string * pyval))
  : LoopState :=
  fold_left process_interface items initial_state.
End Loop.

(** Line 273: the key of the sort. *)
Definition rank (x : InterfaceInfo) : pynum :=
  py_max (input_utilization x) (output_utilization x).

(** [interfaces.sort(key=rank, reverse=True)].  [list.sort] is a stable
    sort that compares keys with [<] only; with [reverse=True] equal
    keys keep their order.  Where the keys are totally ordered this
    fixes the result, which the insertion sort below computes. *)
Fixpoint insert_by_rank (x : InterfaceInfo) (l : list InterfaceInfo)
  : list InterfaceInfo :=
  match l with
  | [] => [x]
  | y :: l' =>
      if py_lt (rank x) (rank y) then y :: insert_by_rank x l'
      else x :: l
  end.

Definition sort_by_rank (l : list InterfaceInfo) : list InterfaceInfo :=
  fold_right insert_by_rank [] l.

(** Lines 57-297.  [now] is the clock reading of line 284, already
    formatted.  The [if debug:] blocks only write to the diagnostic
    stream and are left out. *)
Definition get_port_utilization_body (connection : Connection)
    (threshold : Z) (now : string) : result Report :=
  show_version <- execute connection "show version" ;;
  results <- py_getitem show_version "result" ;;
  version_data <- py_getitem0 results ;;
  device_info <- device_identity version_data (transport_host connection) ;;
  show_interfaces_description <-
    execute connection "show interfaces description" ;;
  interface_descriptions <-
    side_table show_interfaces_description "interfaceDescriptions" ;;
  show_interfaces_status <- execute connection "show interfaces status" ;;
  interface_status <-
    side_table show_interfaces_status "interfaceStatuses" ;;
  show_interfaces_counters <-
    execute connection "show interfaces counters" ;;
  interface_counters <- side_table show_interfaces_counters "interfaces" ;;
  show_interfaces_rates <-
    execute connection "show interfaces counters rates" ;;
  interface_rates <- side_table show_interfaces_rates "interfaces" ;;
  show_interfaces_errors <-
    execute connection "show interfaces counters errors" ;;
  interface_errors <-
    side_table show_interfaces_errors "interfaceCounters" ;;
  items <- py_items interface_status ;;
  let st := process_interfaces interface_descriptions interface_rates
              interface_errors threshold items in
  let interfaces := sort_by_rank (interfaces_so_far st) in
  Ok {| device := device_info;
        timestamp := now;
        interfaces := interfaces;
        summary :=
          {| total_interfaces := Z.of_nat (List.length interfaces);
             active_interfaces := active_interfaces_count st;
             high_utilization_interfaces := high_utilization_count st;
             error_interfaces := error_interfaces_count st |} |}.

Definition get_port_utilization (connection : Connection)
    (threshold : Z) (now : string) : result Report :=
  match get_port_utilization_body connection threshold now with
  | Ok r => Ok r
  | Raise e =>
      Raise (mk_exn RuntimeError
               ("Failed to retrieve port utilization data: " ++ exn_str e))
  end.

(** Lines 313-350 of [main].  [connect] is the outcome of
    [pyeapi.connect]; [sys.exit] raises [SystemExit], which
    [except Exception] does not catch. *)
Definition main (connect : result Connection) (threshold : Z)
    (now : string) : process Document :=
  match (node <- connect ;; get_port_utilization node threshold now) with
  | Ok r => mk_process [ReportDoc r] [] 0
  | Raise e =>
      mk_process [ErrorDoc (exn_str e) false] ["Error: " ++ exn_str e] 1
  end.
End Script.

End Arista.

(* ================================================================== *)
(** * cisco-ios-xe-bgp-status.py *)
(* ================================================================== *)

Module Cisco.

(** The paramiko client.  [connect] is the outcome of
    [ssh_client.connect(...)]; [run cmd] is the outcome of
    [exec_command(cmd)] followed by [stdout.read().decode()]. *)
Record Session : Type := mk_session {
  connect : result unit;
  run : string -> result string
}.

(** The functions of Python's [re] module the script calls, as
    parameters: [search1 p s] is [re.search(p, s)] for a pattern with one
    group, giving [group(1)]; [search2] is the same for two groups;
    [split p s] is [re.split(p, s)]. *)
Record regex : Type := mk_regex {
  search1 : string -> string -> option string;
  search2 : string -> string -> option (string * string);
  split : string -> string -> list string
}.

Record DeviceInfo : Type := mk_device_info {
  hostname : string;
  platform : string
}.

Record BgpInfo : Type := mk_bgp_info {
  local_as : string;
  router_id : string
}.

Record Neighbor : Type := mk_neighbor {
  neighbor_ip : string;
  remote_as : string;
  state : string;
  uptime : string;
  prefixes_received : Z;
  prefixes_sent : Z;
  description : string
}.

Record Summary : Type := mk_summary {
  total_neighbors : Z;
  established_sessions : Z;
  down_sessions : Z
}.

Record Report : Type := mk_report {
  device : DeviceInfo;
  bgp : BgpInfo;
  neighbors : list Neighbor;
  summary : Summary;
  status : option string
}.

Inductive Document : Type :=
  | ReportDoc (r : Report)
  | ErrorDoc (error : string) (success : bool).

(** How the [try] block of [get_bgp_neighbors] ends: with the report, or
    with an exception and the two locals the handler looks up in
    [locals()], each [None] while still unassigned. *)
Inductive Outcome : Type :=
  | Returned (r : Report)
  | Raised (e : exn) (platform : option string) (hostname : option string).

Definition neighbor_regex : string :=
  "BGP neighbor is (\d+\.\d+\.\d+\.\d+),\s+remote AS (\d+)".
Definition state_regex : string := "BGP state = (\w+)".
Definition uptime_regex : string := "Up for (\d+:\d+:\d+|\d+\w+\d+\w+)".
Definition prefixes_received_regex : string := "(\d+) accepted prefixes".
Definition prefixes_sent_regex : string := "(\d+) announced prefixes".
Definition description_regex : string := "Description: (.*)".

Definition not_configured_status : string :=
  "BGP not configured or not active on this device".

Section Script.
Variable py : builtins.
Variable re : regex.

(** [int(m.group(1)) if m else 0] *)
Definition int_group (m : option string) : result Z :=
  match m with
  | None => Ok 0
  | Some g =>
      match int_of_str py g with
      | Some n => Ok n
      | None => Raise (mk_exn ValueError
                         ("invalid literal for int() with base 10: "
                          ++ quote g))
      end
  end.

(** [m.group(1) if m else dflt] *)
Definition group_or (m : option string) (dflt : string) : string :=
  match m with
  | Some g => g
  | None => dflt
  end.

(** Lines 140-173: the loop over the sections of the neighbor output. *)
Fixpoint parse_sections (sections : list string) (neighbors : list Neighbor)
  : result (list Neighbor) :=
  match sections with
  | [] => Ok neighbors
  | section :: rest =>
      let section := "BGP neighbor is" ++ section in
      match search2 re neighbor_regex section with
      | None => parse_sections rest neighbors
      | Some (neighbor_ip, remote_as) =>
          let state := group_or (search1 re state_regex section) "Unknown" in
          let uptime := group_or (search1 re uptime_regex section) "N/A" in
          prefixes_received <-
            int_group (search1 re prefixes_received_regex section) ;;
          prefixes_sent <-
            int_group (search1 re prefixes_sent_regex section) ;;
          let description :=
            group_or (search1 re description_regex section) "" in
          parse_sections rest
            (neighbors ++
             [ {| neighbor_ip := neighbor_ip;
                  remote_as := remote_as;
                  state := state;
                  uptime := uptime;
                  prefixes_received := prefixes_received;
                  prefixes_sent := prefixes_sent;
                  description := description |} ])
      end
  end.

(** Line 177: [sum(1 for n in neighbors if n["state"] == "Established")] *)
Definition count_established (neighbors : list Neighbor) : Z :=
  Z.of_nat (List.length
              (filter (fun n => String.eqb (state n) "Established")
                 neighbors)).

(** Lines 175-178 *)
Definition summarize (neighbors : list Neighbor) : Summary :=
  let total_neighbors := Z.of_nat (List.length neighbors) in
  let established_sessions := count_established neighbors in
  let down_sessions := total_neighbors - established_sessions in
  {| total_neighbors := total_neighbors;
     established_sessions := established_sessions;
     down_sessions := down_sessions |}.

(** Lines 114-117: [if specific_neighbor:] is false for [None] and for
    the empty string. *)
Definition neighbors_command (specific_neighbor : option string) : string :=
  match specific_neighbor with
  | Some n => if String.eqb n "" then "show ip bgp neighbors"
              else "show ip bgp neighbors " ++ n
  | None => "show ip bgp neighbors"
  end.

(** Lines 81-200: the [try] block. *)
Definition get_bgp_neighbors_body (ssh : Session) (host : string)
    (specific_neighbor : option string) : Outcome :=
  match connect ssh with
  | Raise e => Raised e None None
  | Ok _ =>
  match run ssh "show version | include Software" with
  | Raise e => Raised e None None
  | Ok version_output =>
  let platform := if str_in "IOS-XE" version_output then "Cisco IOS-XE"
                  else "Cisco IOS" in
  match run ssh "show running-config | include hostname" with
  | Raise e => Raised e (Some platform) None
  | Ok output =>
  let hostname_output := strip output in
  let hostname := if str_in "hostname" hostname_output
                  then replace "hostname " "" hostname_output
                  else host in
  match run ssh "show ip bgp summary" with
  | Raise e => Raised e (Some platform) (Some hostname)
  | Ok summary_output =>
  let local_as :=
    group_or (search1 re "local AS number (\d+)" summary_output)
      "Unknown" in
  let router_id :=
    group_or (search1 re "BGP router identifier (\d+\.\d+\.\d+\.\d+)"
                summary_output) "Unknown" in
  match run ssh (neighbors_command specific_neighbor) with
  | Raise e => Raised e (Some platform) (Some hostname)
  | Ok neighbors_output =>
  let neighbor_sections := tl (split re "BGP neighbor is" neighbors_output) in
  match parse_sections neighbor_sections [] with
  | Raise e => Raised e (Some platform) (Some hostname)
  | Ok neighbors =>
      Returned
        {| device := {| hostname := hostname; platform := platform |};
           bgp := {| local_as := local_as; router_id := router_id |};
           neighbors := neighbors;
           summary := summarize neighbors;
           status := None |}
  end end end end end end.

(** The report of lines 209-225 and of lines 252-268. *)
Definition not_configured (hostname platform : string) : Report :=
  {| device := {| hostname := hostname; platform := platform |};
     bgp := {| local_as := "Not configured";
               router_id := "Not configured" |};
     neighbors := [];
     summary := {| total_neighbors := 0;
                   established_sessions := 0;
                   down_sessions := 0 |};
     status := Some not_configured_status |}.

(** Line 208 *)
Definition no_bgp_session (message : string) : bool :=
  str_in "No existing session" message
  || str_in "BGP not active" message
  || str_in "%BGP" message.

(** [v if 'v' in locals() else dflt] *)
Definition local_or (v : option string) (dflt : string) : string :=
  match v with
  | Some x => x
  | None => dflt
  end.

(** Lines 202-227: the three handlers. *)
Definition handle (host : string) (o : Outcome) : result Report :=
  match o with
  | Returned r => Ok r
  | Raised e platform hostname =>
      if is_instance [NoValidConnectionsError] e then
        Raise (mk_exn RuntimeError
                 ("Failed to connect to device: " ++ exn_str e))
      else if is_instance [AuthenticationException] e then
        Raise (mk_exn RuntimeError
                 ("Authentication failed: " ++ exn_str e))
      else if no_bgp_session (exn_str e) then
        Ok (not_configured (local_or hostname host)
              (local_or platform "Cisco IOS-XE"))
      else
        Raise (mk_exn RuntimeError
                 ("Failed to retrieve BGP neighbor information: "
                  ++ exn_str e))
  end.

(** Lines 40-227 *)
Definition get_bgp_neighbors (ssh : Session) (host : string)
    (specific_neighbor : option string) : result Report :=
  handle host (get_bgp_neighbors_body ssh host specific_neighbor).

(** Lines 248-250: the test of the inner handler of [main]. *)
Definition bgp_related (e : exn) : bool :=
  negb (is_instance [NoValidConnectionsError] e)
  && negb (is_instance [AuthenticationException] e)
  && (str_in "BGP" (exn_str e) || str_in "No existing session" (exn_str e)).

(** Lines 240-285, for the outcome [r] of the call of line 243.
    [sys.exit] raises [SystemExit], which neither [except Exception]
    catches. *)
Definition report_or_fail (host : string) (r : result Report)
  : process Document :=
  match r with
  | Ok result => mk_process [ReportDoc result] [] 0
  | Raise e =>
      if bgp_related e
      then mk_process [ReportDoc (not_configured host "Cisco IOS-XE")] [] 0
      else mk_process [ErrorDoc (exn_str e) false]
             ["Error: " ++ exn_str e] 1
  end.

Definition main (ssh : Session) (host : string)
    (neighbor : option string) : process Document :=
  report_or_fail host (get_bgp_neighbors ssh host neighbor).
End Script.

End Cisco.

(* ================================================================== *)
(** * juniper-junos-ospf-status.py *)
(* ================================================================== *)

Module Juniper.

(** An [ospf-neighbor] element of the RPC reply: its children, tag and
    text.  [findtext tag] is the text of the first child with that tag,
    [None] when there is none. *)
Definition Element : Type := list (string * string).

Definition findtext (nbr : Element) (tag : string) : option string :=
  lookup tag nbr.

(** The PyEZ device.  [open] is the outcome of [dev.open()]; [facts] is
    the mapping [dev.facts], indexed by key;
    [get_ospf_neighbor_information instance area] is the outcome of the
    RPC followed by [findall(".//ospf-neighbor")], with [area] present
    when the call passes it. *)
Record Device : Type := mk_device {
  open : result unit;
  facts : list (string * pyval);
  get_ospf_neighbor_information :
    string -> option string -> result (list Element)
}.

Record DeviceInfo : Type := mk_device_info {
  hostname : pyval;
  platform : pyval;
  model : pyval;
  version : pyval
}.

Record Neighbor : Type := mk_neighbor {
  neighbor_id : option string;
  neighbor_address : option string;
  interface : option string;
  state : option string;
  area : option string;
  adjacency_time : option string;
  dead_time : option string
}.

Record Summary : Type := mk_summary {
  total_neighbors : Z;
  full_state_neighbors : Z;
  non_full_state_neighbors : Z;
  areas : list (option string)
}.

Record Report : Type := mk_report {
  device : DeviceInfo;
  timestamp : string;
  ospf_instance : string;
  neighbors : list Neighbor;
  summary : Summary
}.

Inductive Document : Type :=
  | ReportDoc (r : Report)
  | ErrorDoc (error : string) (success : bool).

(** What the loop of lines 114-141 updates. *)
Record LoopState : Type := mk_loop_state {
  neighbors_so_far : list Neighbor;
  areas_so_far : list (option string);
  full_state_count : Z;
  non_full_state_count : Z
}.

Definition initial_state : LoopState := mk_loop_state [] [] 0 0.

Definition option_string_eqb (a b : option string) : bool :=
  match a, b with
  | Some x, Some y => String.eqb x y
  | None, None => true
  | _, _ => false
  end.

(** [areas.add(a)] on a set, kept as a list without repetition.  The
    order in which [list(areas)] enumerates a Python set is unspecified;
    the list here keeps the order of first insertion. *)
Definition set_add (a : option string) (s : list (option string))
  : list (option string) :=
  if existsb (option_string_eqb a) s then s else s ++ [a].

(** [dev.facts[key]] *)
Definition fact (facts : list (string * pyval)) (key : string)
  : result pyval :=
  match lookup key facts with
  | Some v => Ok v
  | None => Raise (mk_exn KeyError (quote key))
  end.

(** Lines 115-141: one turn of the loop. *)
Definition process_neighbor (st : LoopState) (nbr : Element) : LoopState :=
  let neighbor_id := findtext nbr "neighbor-id" in
  let neighbor_address := findtext nbr "neighbor-address" in
  let interface := findtext nbr "interface-name" in
  let state := findtext nbr "ospf-neighbor-state" in
  let ospf_area := findtext nbr "ospf-area" in
  let adjacency_time := findtext nbr "neighbor-adjacency-time" in
  let dead_time := findtext nbr "ospf-neighbor-dead-time" in
  let areas := set_add ospf_area (areas_so_far st) in
  let is_full := option_string_eqb state (Some "Full") in
  {| neighbors_so_far :=
       neighbors_so_far st ++
       [ {| neighbor_id := neighbor_id;
            neighbor_address := neighbor_address;
            interface := interface;
            state := state;
            area := ospf_area;
            adjacency_time := adjacency_time;
            dead_time := dead_time |} ];
     areas_so_far := areas;
     full_state_count :=
       if is_full then full_state_count st + 1 else full_state_count st;
     non_full_state_count :=
       if is_full then non_full_state_count st
       else non_full_state_count st + 1 |}.

(** Lines 102-105: [if area:] is false for [None] and the empty string. *)
Definition area_argument (area : option string) : option string :=
  match area with
  | Some a => if String.eqb a "" then None else Some a
  | None => None
  end.

(** Lines 89-166: the [try] block; [now] is the clock reading of line
    152, already formatted. *)
Definition get_ospf_neighbors_body (dev : Device) (instance : string)
    (area : option string) (now : string) : result Report :=
  _ <- open dev ;;
  hostname <- fact (facts dev) "hostname" ;;
  model <- fact (facts dev) "model" ;;
  version <- fact (facts dev) "version" ;;
  let device_info := {| hostname := hostname;
                        platform := VStr "Juniper JUNOS";
                        model := model;
                        version := version |} in
  rpc <- get_ospf_neighbor_information dev instance (area_argument area) ;;
  let st := fold_left process_neighbor rpc initial_state in
  let neighbors := neighbors_so_far st in
  Ok {| device := device_info;
        timestamp := now;
        ospf_instance := instance;
        neighbors := neighbors;
        summary :=
          {| total_neighbors := Z.of_nat (List.length neighbors);
             full_state_neighbors := full_state_count st;
             non_full_state_neighbors := non_full_state_count st;
             areas := areas_so_far st |} |}.

(** Lines 88-169 *)
Definition get_ospf_neighbors (dev : Device) (instance : string)
    (area : option string) (now : string) : result Report :=
  match get_ospf_neighbors_body dev instance area now with
  | Ok r => Ok r
  | Raise e =>
      Raise (mk_exn RuntimeError
               ("Failed to retrieve OSPF neighbor information: "
                ++ exn_str e))
  end.

(** Lines 184-213 of [main]. *)
Definition main (dev : Device) (instance : string) (area : option string)
    (now : string) : process Document :=
  match get_ospf_neighbors dev instance area now with
  | Ok r => mk_process [ReportDoc r] [] 0
  | Raise e =>
      mk_process [ErrorDoc (exn_str e) false] ["Error: " ++ exn_str e] 1
  end.

(** The invariant of the loop: the two counters add up to the number of
    neighbors collected. *)
Definition counted (st : LoopState) : Prop :=
  full_state_count st + non_full_state_count st
  = Z.of_nat (List.length (neighbors_so_far st)).

End Juniper.

(* ================================================================== *)
(** * dns-domain-checker.py *)
(* ================================================================== *)

Module Dns.

(** The resolver: the outcome of [socket.gethostbyname(hostname)]. *)
Definition Resolver : Type := string -> result string.

(** Lines 69-75 *)
Definition check_dns_record_exists (gethostbyname : Resolver)
    (hostname : string) : result (bool * option string) :=
  match gethostbyname hostname with
  | Ok ip_address => Ok (true, Some ip_address)
  | Raise e =>
      if is_instance [GaiError] e then Ok (false, None) else Raise e
  end.

(** Lines 99-113 of [main]: the lines printed, then [sys.exit(0)]. *)
Definition main (gethostbyname : Resolver) (hostname : string)
  : result (process string) :=
  r <- check_dns_record_exists gethostbyname hostname ;;
  let '(exists_, ip_address) := r in
  let lines :=
    if exists_ : bool then
      ("DNS record for " ++ hostname ++ " exists.") ::
      match ip_address with
      | Some ip => if String.eqb ip "" then []
                   else ["IP address: " ++ ip]
      | None => []
      end
    else ["DNS record for " ++ hostname ++ " does not exist."] in
  Ok (mk_process lines [] 0).

(** Lines 116-126: the script.  An exception of [main] is reported on
    the diagnostic stream and the exit code is 1. *)
Definition script (gethostbyname : Resolver) (hostname : string)
  : process string :=
  match main gethostbyname hostname with
  | Ok p => p
  | Raise e => mk_process [] ["Error: " ++ exn_str e] 1
  end.

End Dns.

(* ================================================================== *)
(** * Example collaborators *)
(* ================================================================== *)

Module Examples.

(** A fragment of [int(str)] and [float(str)]: an optional minus sign
    followed by ASCII digits.  Anything else is rejected. *)
Definition digit (c : ascii) : option Z :=
  let n := Z.of_nat (nat_of_ascii c) in
  if (48 <=? n) && (n <=? 57) then Some (n - 48) else None.

Fixpoint digits (acc : Z) (s : string) : option Z :=
  match s with
  | EmptyString => Some acc
  | String c s' =>
      match digit c with
      | Some d => digits (10 * acc + d) s'
      | None => None
      end
  end.

Definition decimal (s : string) : option Z :=
  match s with
  | EmptyString => None
  | String "-" (String c s') => option_map Z.opp (digits 0 (String c s'))
  | _ => digits 0 s
  end.

Definition plain : builtins :=
  {| float_of_str := fun s =>
       match decimal s with
       | Some n =>
           match float_of_int n with
           | Ok f => Some f
           | Raise _ => None
           end
       | None => None
       end;
     int_of_str := decimal |}.

(** A regex library that never matches and never splits. *)
Definition no_match : Cisco.regex :=
  {| Cisco.search1 := fun _ _ => None;
     Cisco.search2 := fun _ _ => None;
     Cisco.split := fun _ s => [s] |}.

(** A regex library that finds one established neighbor. *)
Definition one_neighbor : Cisco.regex :=
  {| Cisco.search1 := fun p _ =>
       if String.eqb p Cisco.state_regex then Some "Established" else None;
     Cisco.search2 := fun _ _ => Some ("192.0.2.1", "65001");
     Cisco.split := fun _ s => [""; s] |}.

(** An SSH session whose commands all succeed with the same output. *)
Definition answering (output : string) : Cisco.Session :=
  {| Cisco.connect := Ok tt; Cisco.run := fun _ => Ok output |}.

(** An SSH session that cannot be opened: [connect] raises [e]. *)
Definition unreachable (e : exn) : Cisco.Session :=
  {| Cisco.connect := Raise e; Cisco.run := fun _ => Raise e |}.

(** An SSH session on which the BGP summary command raises [e]. *)
Definition failing_summary (e : exn) : Cisco.Session :=
  {| Cisco.connect := Ok tt;
     Cisco.run := fun cmd =>
       if String.eqb cmd "show version | include Software"
       then Ok "Cisco IOS XE Software, Version 17.03.04 IOS-XE"
       else if String.eqb cmd "show running-config | include hostname"
       then Ok " hostname edge1 "
       else Raise e |}.

(** The message of a router on which BGP is not running. *)
Definition bgp_not_active : exn := mk_exn OtherError "% BGP not active".

(** A failure of the SSH handshake. *)
Definition banner_error : exn :=
  mk_exn OtherError "Error reading SSH protocol banner".

(** A NETCONF device with the given facts and neighbor elements. *)
Definition router (facts : list (string * pyval))
    (reply : list Juniper.Element) : Juniper.Device :=
  {| Juniper.open := Ok tt;
     Juniper.facts := facts;
     Juniper.get_ospf_neighbor_information := fun _ _ => Ok reply |}.

(** The binary64 number nearest to [num / den]: what the decimal literal
    with that value denotes. *)
Definition literal (num den : Z) : float :=
  fdiv (raw_of_int num) (raw_of_int den).

(** An eAPI response [{"result": [{key: table}]}]. *)
Definition response (key : string) (table : pyval) : pyval :=
  VDict [("result", VList [VDict [(key, table)]])].

(** A switch that answers [show version] with [version_data] and the
    table commands with the given tables. *)
Definition switch (host : string) (version_data descriptions statuses
    rates errors : pyval) : Arista.Connection :=
  {| Arista.execute := fun cmd =>
       if String.eqb cmd "show version"
       then Ok (VDict [("result", VList [version_data])])
       else if String.eqb cmd "show interfaces description"
       then Ok (response "interfaceDescriptions" descriptions)
       else if String.eqb cmd "show interfaces status"
       then Ok (response "interfaceStatuses" statuses)
       else if String.eqb cmd "show interfaces counters"
       then Ok (response "interfaces" (VDict []))
       else if String.eqb cmd "show interfaces counters rates"
       then Ok (response "interfaces" rates)
       else if String.eqb cmd "show interfaces counters errors"
       then Ok (response "interfaceCounters" errors)
       else Raise (mk_exn OtherError ("unknown command " ++ cmd));
     Arista.transport_host := host |}.

End Examples.

(* ================================================================== *)
(** * The vocabulary of the statements about the port report *)
(* ================================================================== *)

Module AristaSpec.
Import Arista.

(** [float(100)] *)
Definition hundred : float := S754_finite false 7036874417766400 (-46).

(** The numbers a rate can be: the [int] 0 of the defaults, or a
    [float]. *)
Definition rate_shape (x : pynum) : Prop :=
  x = PInt 0 \/ exists f, x = PFloat f.

(** The numbers the bandwidth can be: the [int] 0 of the defaults, or a
    [float] other than an infinity. *)
Definition bandwidth_shape (x : pynum) : Prop :=
  x = PInt 0 \/ exists f, x = PFloat f /\ forall s, f <> S754_infinity s.

(** The operand of a [float] operation, for a rate. *)
Definition operand (x : pynum) : float :=
  match x with
  | PFloat f => f
  | PInt _ => S754_zero false
  end.

(** The order of the claim: [rank a >= rank b]. *)
Definition ge_rank (a b : InterfaceInfo) : Prop :=
  py_ge (rank a) (rank b) = true.

Definition comparable (x : InterfaceInfo) : Prop := value (rank x) <> XNaN.

(** What the fetches of lines 62-173 produce: the device block, and the
    tables of descriptions, statuses, rates and errors. *)
Definition fetch (connection : Connection)
  : result (DeviceInfo * pyval * list (string * pyval) * pyval * pyval) :=
  show_version <- execute connection "show version" ;;
  results <- py_getitem show_version "result" ;;
  version_data <- py_getitem0 results ;;
  device_info <- device_identity version_data (transport_host connection) ;;
  show_interfaces_description <-
    execute connection "show interfaces description" ;;
  interface_descriptions <-
    side_table show_interfaces_description "interfaceDescriptions" ;;
  show_interfaces_status <- execute connection "show interfaces status" ;;
  interface_status <-
    side_table show_interfaces_status "interfaceStatuses" ;;
  show_interfaces_counters <-
    execute connection "show interfaces counters" ;;
  interface_counters <- side_table show_interfaces_counters "interfaces" ;;
  show_interfaces_rates <-
    execute connection "show interfaces counters rates" ;;
  interface_rates <- side_table show_interfaces_rates "interfaces" ;;
  show_interfaces_errors <-
    execute connection "show interfaces counters errors" ;;
  interface_errors <-
    side_table show_interfaces_errors "interfaceCounters" ;;
  items <- py_items interface_status ;;
  Ok (device_info, interface_descriptions, items, interface_rates,
      interface_errors).

(** [u] is the utilization the report shows for [rate] over [capacity]:
    the rounded result of [utilization], which is computed without raising;
    with a positive capacity it is [round(rate / capacity * 100, 2)];
    otherwise it is the [int] 0 and nothing is divided; and it is not
    negative when the rate is not. *)
Definition shown_utilization (rate capacity u : pynum) : Prop :=
  (exists percent, utilization rate capacity = Ok percent
                   /\ u = round2 percent)
  /\ (positive_num capacity ->
      exists ratio percent,
        py_truediv rate capacity = Ok ratio
        /\ py_mul ratio (PInt 100) = Ok percent
        /\ u = round2 percent)
  /\ (py_gt capacity (PInt 0) = false -> u = PInt 0)
  /\ (nonneg rate -> nonneg u).

(** The number 0, as an [int] or as a [float]. *)
Definition zero (x : pynum) : Prop :=
  x = PInt 0 \/ x = PFloat (S754_zero false).

Definition ethernet1_status : pyval :=
  VDict [("Ethernet1",
          VDict [("bandwidth", VInt 1000000000); ("linkStatus", VStr "up")])].

Definition ethernet1_rates (inRate outRate : pyval) : pyval :=
  VDict [("Ethernet1", VDict [("inRate", inRate); ("outRate", outRate)])].

(** One interface of 1 Gbit/s with the given rates; no descriptions, no
    error counters. *)
Definition one_port (host : string) (rates : pyval) : Connection :=
  Examples.switch host (VDict []) (VDict []) ethernet1_status rates (VDict []).

Definition scenario (host : string) : Connection :=
  one_port host (ethernet1_rates (VInt 700) (VInt 100)).

(** Two interfaces of 1 Gbit/s, with the given rates and error
    counters. *)
Definition two_ports (host : string) (rates errors : pyval) : Connection :=
  Examples.switch host (VDict []) (VDict [])
    (VDict [("Ethernet1",
             VDict [("bandwidth", VInt 1000000000); ("linkStatus", VStr "up")]);
            ("Ethernet2",
             VDict [("bandwidth", VInt 1000000000);
                    ("linkStatus", VStr "up")])])
    rates errors.

Definition two_rates (inRate1 : pyval) : list (string * pyval) :=
  [("Ethernet1", VDict [("inRate", inRate1); ("outRate", VInt 100)]);
   ("Ethernet2", VDict [("inRate", VInt 900); ("outRate", VInt 50)])].

Definition two_errors (inErrors1 : pyval) : list (string * pyval) :=
  [("Ethernet1", VDict [("inErrors", inErrors1); ("outErrors", VInt 0)]);
   ("Ethernet2", VDict [("inErrors", VInt 0); ("outErrors", VInt 2)])].

(** Which of the four numeric fields of an interface became unreadable. *)
Record Damage : Type := mk_damage {
  in_rate : bool;
  out_rate : bool;
  in_errors : bool;
  out_errors : bool
}.

(** The input rate and the input error counter. *)
Definition in_rate_and_in_errors : Damage :=
  {| in_rate := true; out_rate := false;
     in_errors := true; out_errors := false |}.

(** A damaged number reads as 0; an undamaged one reads as before. *)
Definition kept_or_zero (damaged : bool) (before after : pynum) : Prop :=
  if damaged then zero after else after = before.

Definition kept_or_zero_count (damaged : bool) (before after : Z) : Prop :=
  if damaged then after = 0 else after = before.

(** How the item [b] of the damaged interface relates to its item [a] of
    before.  Nothing is said of [high_utilization], which follows the
    utilizations. *)
Definition same_but (d : Damage) (a b : InterfaceInfo) : Prop :=
  name b = name a
  /\ description b = description a
  /\ status b = status a
  /\ bandwidth_mbps b = bandwidth_mbps a
  /\ kept_or_zero (in_rate d) (input_rate_mbps a) (input_rate_mbps b)
  /\ kept_or_zero (in_rate d) (input_utilization a) (input_utilization b)
  /\ kept_or_zero (out_rate d) (output_rate_mbps a) (output_rate_mbps b)
  /\ kept_or_zero (out_rate d) (output_utilization a) (output_utilization b)
  /\ kept_or_zero_count (in_errors d) (input_errors a) (input_errors b)
  /\ kept_or_zero_count (out_errors d) (output_errors a) (output_errors b).

(** How the items of the second report relate to those of the first:
    the item of [interface_name] as [same_but] says, every other item is
    the same. *)
Definition unaffected_but (interface_name : string) (d : Damage)
    (a b : InterfaceInfo) : Prop :=
  if String.eqb (name a) interface_name then same_but d a b else b = a.

(** A field that is damaged cannot be read now and could be read before;
    a field that is not reads as before. *)
Definition field_change {A} (damaged : bool) (unreadable_now : Prop)
    (before after : result A) : Prop :=
  if damaged then unreadable_now /\ exists x, before = Ok x
  else after = before.

(** The damaged fields of an item are 0, and so are the utilizations
    derived from damaged rates. *)
Definition defaulted (d : Damage) (b : InterfaceInfo) : Prop :=
  (in_rate d = true ->
   zero (input_rate_mbps b) /\ zero (input_utilization b))
  /\ (out_rate d = true ->
      zero (output_rate_mbps b) /\ zero (output_utilization b))
  /\ (in_errors d = true -> input_errors b = 0)
  /\ (out_errors d = true -> output_errors b = 0).

Section Items.
Variable py : builtins.
Variables interface_descriptions interface_rates interface_errors : pyval.
Variable threshold : Z.

(** The item one turn of the loop appends for an Ethernet interface, or
    the exception that ends the turn. *)
Definition interface_item (interface_name : string) (status : pyval)
  : result InterfaceInfo :=
  description <- get_description interface_descriptions interface_name ;;
  bandwidth_mbps <- get_bandwidth py status ;;
  oper_status <- get_oper_status status ;;
  input_rate_mbps <- get_rate py interface_rates interface_name "inRate" ;;
  output_rate_mbps <- get_rate py interface_rates interface_name "outRate" ;;
  input_utilization <- utilization input_rate_mbps bandwidth_mbps ;;
  output_utilization <- utilization output_rate_mbps bandwidth_mbps ;;
  input_errors <- get_errors py interface_errors interface_name "inErrors" ;;
  output_errors <- get_errors py interface_errors interface_name "outErrors" ;;
  Ok {| name := interface_name;
        description := description;
        status := oper_status;
        bandwidth_mbps := bandwidth_mbps;
        input_rate_mbps := round2 input_rate_mbps;
        output_rate_mbps := round2 output_rate_mbps;
        input_utilization := round2 input_utilization;
        output_utilization := round2 output_utilization;
        input_errors := input_errors;
        output_errors := output_errors;
        high_utilization :=
          py_gt input_utilization (PInt threshold)
          || py_gt output_utilization (PInt threshold) |}.

(** The items a turn of the loop adds to the list. *)
Definition appended (item : string * pyval) : list InterfaceInfo :=
  if prefix "Ethernet" (fst item) then
    match interface_item (fst item) (snd item) with
    | Ok info => [info]
    | Raise _ => []
    end
  else [].

End Items.

Section Fields.
Variable py : builtins.

(** A value [float()] rejects with [TypeError] or [ValueError]: [None],
    a list, a mapping, or a string that is no numeric literal. *)
Definition rejected_by_float (v : pyval) : Prop :=
  match v with
  | VNone | VList _ | VDict _ => True
  | VStr s => float_of_str py s = None
  | _ => False
  end.

(** A value [int()] rejects with [TypeError] or [ValueError]: [None], a
    list, a mapping, a string that is no integer literal, or a NaN. *)
Definition rejected_by_int (v : pyval) : Prop :=
  match v with
  | VNone | VList _ | VDict _ | VFloat S754_nan => True
  | VStr s => int_of_str py s = None
  | _ => False
  end.

(** The [field] of an interface cannot be read from the side-table: the
    interface has no entry, or its entry is a mapping without the field,
    or with a rejected value for it. *)
Inductive unreadable (rejected : pyval -> Prop)
    (table : list (string * pyval)) (interface_name field : string) : Prop :=
  | no_entry :
      lookup interface_name table = None ->
      unreadable rejected table interface_name field
  | no_field entry :
      lookup interface_name table = Some (VDict entry) ->
      lookup field entry = None ->
      unreadable rejected table interface_name field
  | bad_field entry v :
      lookup interface_name table = Some (VDict entry) ->
      lookup field entry = Some v ->
      rejected v ->
      unreadable rejected table interface_name field.

(** The second run reads the rates table [R'] and the errors table [E']
    where the first read [R] and [E]; for [interface_name] the fields of
    [d] are damaged, and nothing else changed. *)
Record damaged_tables (R R' E E' : list (string * pyval))
    (interface_name : string) (d : Damage) : Prop := {
  rates_elsewhere :
    forall other, other <> interface_name -> lookup other R' = lookup other R;
  errors_elsewhere :
    forall other, other <> interface_name -> lookup other E' = lookup other E;
  in_rate_change :
    field_change (in_rate d)
      (unreadable rejected_by_float R' interface_name "inRate")
      (get_rate py (VDict R) interface_name "inRate")
      (get_rate py (VDict R') interface_name "inRate");
  out_rate_change :
    field_change (out_rate d)
      (unreadable rejected_by_float R' interface_name "outRate")
      (get_rate py (VDict R) interface_name "outRate")
      (get_rate py (VDict R') interface_name "outRate");
  in_errors_change :
    field_change (in_errors d)
      (unreadable rejected_by_int E' interface_name "inErrors")
      (get_errors py (VDict E) interface_name "inErrors")
      (get_errors py (VDict E') interface_name "inErrors");
  out_errors_change :
    field_change (out_errors d)
      (unreadable rejected_by_int E' interface_name "outErrors")
      (get_errors py (VDict E) interface_name "outErrors")
      (get_errors py (VDict E') interface_name "outErrors")
}.

End Fields.

End AristaSpec.

(* ================================================================== *)
(** * The vocabulary of further statements about the port report *)
(* ================================================================== *)

Module AristaReportSpec.
Import Arista AristaSpec.

(** The number of items of a list that pass a test. *)
Definition tally {A} (p : A -> bool) (l : list A) : Z :=
  Z.of_nat (List.length (filter p l)).

(** The tests behind the three counters of the summary. *)
Definition is_up (info : InterfaceInfo) : bool := eq_str (status info) "up".

Definition has_errors (info : InterfaceInfo) : bool :=
  (input_errors info >? 0) || (output_errors info >? 0).

(** The entries of the status table the loop does not skip. *)
Definition is_ethernet (item : string * pyval) : bool :=
  prefix "Ethernet" (fst item).

(** What the loop keeps true after [seen] Ethernet entries: the error
    counter is the number of listed items with errors; the two other
    counters are at least the number of listed items they are about, and
    exceed it by at most the number of entries left out. *)
Definition tallied (seen : Z) (st : LoopState) : Prop :=
  let l := interfaces_so_far st in
  let left_out := seen - Z.of_nat (List.length l) in
  0 <= left_out
  /\ error_interfaces_count st = tally has_errors l
  /\ tally high_utilization l <= high_utilization_count st
     <= tally high_utilization l + left_out
  /\ tally is_up l <= active_interfaces_count st
     <= tally is_up l + left_out.

(** Two interfaces of 1 Gbit/s that are up; the entry of the first in the
    rates table is [null]. *)
Definition null_rates_entry (host : string) : Connection :=
  two_ports host
    (VDict [("Ethernet1", VNone);
            ("Ethernet2", VDict [("inRate", VInt 900); ("outRate", VInt 50)])])
    (VDict (two_errors (VInt 3))).

(** [d.get(k, dflt)] on the bindings of a mapping. *)
Definition get_or (d : list (string * pyval)) (k : string) (dflt : pyval)
  : pyval :=
  match lookup k d with
  | Some v => v
  | None => dflt
  end.

(** Two interfaces that are up, the first without a bandwidth, and a port
    channel; only the second interface has a description. *)
Definition mixed_ports (host : string) : Connection :=
  Examples.switch host (VDict [])
    (VDict [("Ethernet2", VDict [("description", VStr "uplink")])])
    (VDict [("Ethernet1", VDict [("linkStatus", VStr "up")]);
            ("Port-Channel1",
             VDict [("bandwidth", VInt 2000000000);
                    ("linkStatus", VStr "up")]);
            ("Ethernet2",
             VDict [("bandwidth", VInt 1000000000)])])
    (VDict (two_rates (VInt 700))) (VDict []).

(** An item without its flag. *)
Definition unflagged (info : InterfaceInfo) : InterfaceInfo :=
  {| name := name info;
     description := description info;
     status := status info;
     bandwidth_mbps := bandwidth_mbps info;
     input_rate_mbps := input_rate_mbps info;
     output_rate_mbps := output_rate_mbps info;
     input_utilization := input_utilization info;
     output_utilization := output_utilization info;
     input_errors := input_errors info;
     output_errors := output_errors info;
     high_utilization := false |}.

(** [b] is [a] with a flag that is set only if the flag of [a] is. *)
Definition fewer_flags (a b : InterfaceInfo) : Prop :=
  unflagged b = unflagged a
  /\ (high_utilization b = true -> high_utilization a = true).

(** The state of the loop under a higher threshold. *)
Definition calmer (st st' : LoopState) : Prop :=
  Forall2 fewer_flags (interfaces_so_far st) (interfaces_so_far st')
  /\ active_interfaces_count st' = active_interfaces_count st
  /\ error_interfaces_count st' = error_interfaces_count st
  /\ high_utilization_count st' <= high_utilization_count st.

(** The items whose rank equals [k], in the order of the list. *)
Definition of_rank (k : pynum) (l : list InterfaceInfo)
  : list InterfaceInfo :=
  filter (fun x => py_eq (rank x) k) l.

(** Three interfaces of 1 Gbit/s; the first and the last carry the same
    load, the second a higher one. *)
Definition tied_ports (host : string) : Connection :=
  Examples.switch host (VDict []) (VDict [])
    (VDict [("Ethernet1", VDict [("bandwidth", VInt 1000000000)]);
            ("Ethernet2", VDict [("bandwidth", VInt 1000000000)]);
            ("Ethernet3", VDict [("bandwidth", VInt 1000000000)])])
    (VDict [("Ethernet1", VDict [("inRate", VInt 100); ("outRate", VInt 50)]);
            ("Ethernet2", VDict [("inRate", VInt 900); ("outRate", VInt 50)]);
            ("Ethernet3", VDict [("inRate", VInt 20); ("outRate", VInt 100)])])
    (VDict []).

(** The commands [get_port_utilization] sends, in the order of the
    calls. *)
Definition commands : list string :=
  ["show version";
   "show interfaces description";
   "show interfaces status";
   "show interfaces counters";
   "show interfaces counters rates";
   "show interfaces counters errors"].

Definition failure_prefix : string :=
  "Failed to retrieve port utilization data: ".

(** The connection that gives [answer] to [command] and is [connection]
    otherwise. *)
Definition with_answer (command : string) (answer : result pyval)
    (connection : Connection) : Connection :=
  {| execute := fun cmd =>
       if String.eqb cmd command then answer else execute connection cmd;
     transport_host := transport_host connection |}.

(** A response that holds no table under [key]: it has no ["result"],
    or an empty one, or one whose first element is a mapping without
    [key]. *)
Definition no_table (key : string) (response : pyval) : Prop :=
  exists d,
    response = VDict d
    /\ (lookup "result" d = None
        \/ lookup "result" d = Some (VList [])
        \/ exists first rest,
             lookup "result" d = Some (VList (VDict first :: rest))
             /\ lookup key first = None).

Definition empty_summary : Summary :=
  {| total_interfaces := 0;
     active_interfaces := 0;
     high_utilization_interfaces := 0;
     error_interfaces := 0 |}.

(** A switch that names itself in its answer to [show version]. *)
Definition named_switch (host : string) : Connection :=
  Examples.switch host
    (VDict [("hostname", VStr "leaf1"); ("modelName", VStr "DCS-7050SX3");
            ("version", VStr "4.28.3M")])
    (VDict []) ethernet1_status (VDict []) (VDict []).

End AristaReportSpec.

(* ================================================================== *)
(** * The vocabulary of further statements about the other scripts *)
(* ================================================================== *)

Module CiscoSpec.
Import Cisco.

Definition empty_summary : Summary :=
  {| total_neighbors := 0; established_sessions := 0; down_sessions := 0 |}.

(** The failures that end a run with exit code 1: one of the two
    paramiko classes, with a message that mentions neither "BGP" nor "No
    existing session". *)
Definition fatal (e : exn) : bool :=
  is_instance [NoValidConnectionsError; AuthenticationException] e
  && negb (str_in "BGP" (exn_str e))
  && negb (str_in "No existing session" (exn_str e)).

Section Sections.
Variable py : builtins.
Variable re : regex.

(** [n] is the neighbor read from the section [s] of the output: address
    and AS number are the groups of [neighbor_regex]; the other fields are
    the group of their pattern, or a default where it does not match. *)
Definition read_from (s : string) (n : Neighbor) : Prop :=
  let section := "BGP neighbor is" ++ s in
  search2 re neighbor_regex section = Some (neighbor_ip n, remote_as n)
  /\ state n = group_or (search1 re state_regex section) "Unknown"
  /\ uptime n = group_or (search1 re uptime_regex section) "N/A"
  /\ int_group py (search1 re prefixes_received_regex section)
     = Ok (prefixes_received n)
  /\ int_group py (search1 re prefixes_sent_regex section)
     = Ok (prefixes_sent n)
  /\ description n
     = group_or (search1 re description_regex section) "".

(** The sections in which [neighbor_regex] matches. *)
Definition is_neighbor (s : string) : bool :=
  match search2 re neighbor_regex ("BGP neighbor is" ++ s) with
  | Some _ => true
  | None => false
  end.

(** [parsed sections neighbors]: the list holds one neighbor for each
    section in which [neighbor_regex] matches, read from that section, in
    the order of the sections. *)
Inductive parsed : list string -> list Neighbor -> Prop :=
  | parsed_nil : parsed [] []
  | parsed_skip s sections neighbors :
      is_neighbor s = false ->
      parsed sections neighbors ->
      parsed (s :: sections) neighbors
  | parsed_read s n sections neighbors :
      read_from s n ->
      parsed sections neighbors ->
      parsed (s :: sections) (n :: neighbors).
End Sections.

(** An SSH session that answers the four commands. *)
Definition session (version_output hostname_output summary_output
    neighbors_output : string) : Session :=
  {| connect := Ok tt;
     run := fun cmd =>
       if String.eqb cmd "show version | include Software"
       then Ok version_output
       else if String.eqb cmd "show running-config | include hostname"
       then Ok hostname_output
       else if String.eqb cmd "show ip bgp summary"
       then Ok summary_output
       else Ok neighbors_output |}.

(** A regex library that splits the neighbor output in three sections,
    of which the second is no neighbor. *)
Definition three_sections : regex :=
  {| search1 := fun p s =>
       if String.eqb p state_regex
       then (if str_in "Established" s then Some "Established"
             else if str_in "Idle" s then Some "Idle" else None)
       else None;
     search2 := fun _ s =>
       if str_in "192.0.2.1" s then Some ("192.0.2.1", "65001")
       else if str_in "192.0.2.9" s then Some ("192.0.2.9", "65009")
       else None;
     split := fun _ _ =>
       ["";
        " 192.0.2.1,  remote AS 65001\n  BGP state = Established";
        " unreadable";
        " 192.0.2.9,  remote AS 65009"] |}.

End CiscoSpec.

Module JuniperSpec.
Import Juniper.

(** The neighbor an [ospf-neighbor] element describes: each field is the
    text of the child of that name, [None] when the element has none. *)
Definition neighbor_of (nbr : Element) : Neighbor :=
  {| neighbor_id := findtext nbr "neighbor-id";
     neighbor_address := findtext nbr "neighbor-address";
     interface := findtext nbr "interface-name";
     state := findtext nbr "ospf-neighbor-state";
     area := findtext nbr "ospf-area";
     adjacency_time := findtext nbr "neighbor-adjacency-time";
     dead_time := findtext nbr "ospf-neighbor-dead-time" |}.

Definition is_full (n : Neighbor) : bool :=
  option_string_eqb (state n) (Some "Full").

(** The number of neighbors in state "Full". *)
Definition count_full (l : list Neighbor) : Z :=
  Z.of_nat (List.length (filter is_full l)).

(** What the loop keeps true: the list mirrors the elements read so far,
    the counter of full adjacencies counts the listed neighbors in state
    "Full", and the areas are those of the listed neighbors, each once. *)
Definition mirrors (seen : list Element) (st : LoopState) : Prop :=
  neighbors_so_far st = map neighbor_of seen
  /\ full_state_count st = count_full (neighbors_so_far st)
  /\ NoDup (areas_so_far st)
  /\ (forall a, In a (areas_so_far st)
                <-> In a (map area (neighbors_so_far st))).

(** The facts of a device and three neighbors, two of them in the same
    area and the last one without state and area. *)
Definition three_neighbors : Device :=
  Examples.router
    [("hostname", VStr "r1"); ("model", VStr "MX480");
     ("version", VStr "20.4R3")]
    [[("neighbor-id", "192.0.2.1"); ("ospf-neighbor-state", "Full");
      ("ospf-area", "0.0.0.0")];
     [("neighbor-id", "192.0.2.2"); ("ospf-neighbor-state", "Init");
      ("ospf-area", "0.0.0.0")];
     [("neighbor-id", "192.0.2.3")]].

Definition failure_prefix : string :=
  "Failed to retrieve OSPF neighbor information: ".

(** The calls of [get_ospf_neighbors] all succeed: the session opens,
    the three facts are there and the RPC is answered. *)
Definition answers (dev : Device) (instance : string)
    (area : option string) : Prop :=
  open dev = Ok tt
  /\ (forall key, In key ["hostname"; "model"; "version"] ->
                  lookup key (facts dev) <> None)
  /\ exists rpc,
       get_ospf_neighbor_information dev instance (area_argument area)
       = Ok rpc.

End JuniperSpec.

Module DnsSpec.
Import Dns.

(** A resolver that knows one name. *)
Definition knows (name ip : string) : Resolver :=
  fun h =>
    if String.eqb h name then Ok ip
    else Raise (mk_exn GaiError "[Errno -2] Name or service not known").

End DnsSpec.

Module Protocol.

(** What the three report scripts leave behind, for a consumer that
    reads the primary stream and the exit code: one document; with exit
    code 0 a report and an empty diagnostic stream; with exit code 1 the
    error document, with [success] false, and its message on the
    diagnostic stream after "Error: ". *)
Definition answered {doc report : Type} (report_doc : report -> doc)
    (error_doc : string -> bool -> doc) (p : process doc) : Prop :=
  (exists r, p = mk_process [report_doc r] [] 0)
  \/ (exists message,
        p = mk_process [error_doc message false] ["Error: " ++ message] 1).

End Protocol.

(* ================================================================== *)
(** * Facts about strings *)
(* ================================================================== *)

Lemma prefix_app (p s t : string) :
  prefix p s = true -> prefix p (s ++ t) = true.
Proof.
  revert s; induction p as [|c p IH]; intros [|d s]; simpl; auto;
    try discriminate; try (destruct t; reflexivity).
  destruct (ascii_dec c d); auto.
Qed.

Lemma prefix_of_app (a b s : string) :
  prefix (a ++ b) s = true -> prefix a s = true.
Proof.
  revert s; induction a as [|c a IH]; intros [|d s]; simpl; auto;
    try discriminate.
  destruct (ascii_dec c d); auto.
Qed.

Lemma str_in_step (n : string) (c : ascii) (s : string) :
  str_in n (String c s) = prefix n (String c s) || str_in n s.
Proof. reflexivity. Qed.

Lemma str_in_app_r (n s t : string) :
  str_in n s = true -> str_in n (s ++ t) = true.
Proof.
  induction s as [|c s IH].
  - destruct n; [destruct t; reflexivity | discriminate].
  - rewrite str_in_step. change (String c s ++ t) with (String c (s ++ t)).
    rewrite str_in_step. intros H. apply orb_true_iff in H. apply orb_true_iff.
    destruct H as [H|H]; [left | right; auto].
    change (String c (s ++ t)) with (String c s ++ t). now apply prefix_app.
Qed.

Lemma str_in_app_l (n s t : string) :
  str_in n t = true -> str_in n (s ++ t) = true.
Proof.
  induction s as [|c s IH]; auto.
  intros H. change (String c s ++ t) with (String c (s ++ t)).
  rewrite str_in_step, (IH H). apply orb_true_r.
Qed.

Lemma str_in_shorter (a b s : string) :
  str_in (a ++ b) s = true -> str_in a s = true.
Proof.
  induction s as [|c s IH].
  - destruct a; [reflexivity | discriminate].
  - rewrite !str_in_step. intros H. apply orb_true_iff in H. apply orb_true_iff.
    destruct H as [H|H]; [left; now apply prefix_of_app with b | right; auto].
Qed.

Lemma str_in_tail (c : ascii) (n s : string) :
  str_in (String c n) s = true -> str_in n s = true.
Proof.
  induction s as [|d s IH]; [discriminate|].
  rewrite !str_in_step. intros H. apply orb_true_iff in H.
  destruct H as [H|H].
  - simpl in H. destruct (ascii_dec c d); [|discriminate].
    apply orb_true_iff. right.
    destruct s; [destruct n; [reflexivity|discriminate]|].
    rewrite str_in_step, H. reflexivity.
  - rewrite (IH H). apply orb_true_r.
Qed.

(* ================================================================== *)
(** * The DNS checker *)
(* ================================================================== *)

Module DnsFacts.
Import Dns.

Lemma script_exit_code (gethostbyname : Resolver) (hostname : string) :
  exit_code (script gethostbyname hostname) =
  match gethostbyname hostname with
  | Ok _ => 0
  | Raise e => if is_instance [GaiError] e then 0 else 1
  end.
Proof.
  unfold script, main, check_dns_record_exists.
  destruct (gethostbyname hostname) as [ip|e]; [reflexivity|].
  destruct (is_instance [GaiError] e); reflexivity.
Qed.

(** C10.  [check_dns_record_exists] returns [(True, ip)] when the name
    resolves and [(False, None)] when the resolver raises [gaierror],
    without raising itself; the script exits with code 0 in both cases,
    and with code 1 exactly when some other exception was raised. *)
Theorem dns_check_and_exit_codes
    (gethostbyname : Resolver) (hostname : string) :
  (forall ip, gethostbyname hostname = Ok ip ->
     check_dns_record_exists gethostbyname hostname = Ok (true, Some ip)
     /\ exit_code (script gethostbyname hostname) = 0)
  /\ (forall e, gethostbyname hostname = Raise e ->
        exn_class e = GaiError ->
        check_dns_record_exists gethostbyname hostname = Ok (false, None)
        /\ exit_code (script gethostbyname hostname) = 0)
  /\ (exit_code (script gethostbyname hostname) = 1 <->
      exists e, gethostbyname hostname = Raise e /\ exn_class e <> GaiError).
Proof.
  rewrite script_exit_code. unfold check_dns_record_exists, is_instance.
  destruct (gethostbyname hostname) as [ip|e]; simpl.
  - split; [|split].
    + intros ip' E. injection E as <-. auto.
    + discriminate.
    + split; [discriminate | intros (e & E & _); discriminate].
  - split; [discriminate|split].
    + intros e' E K. injection E as <-. rewrite K. auto.
    + destruct (exn_class e) eqn:K; simpl; split;
        try discriminate; try reflexivity;
        try (intros _; exists e; split;
             [reflexivity | rewrite K; discriminate]).
      intros (e' & E & N). injection E as <-. now rewrite K in N.
Qed.

Lemma dns_check_and_exit_codes_witness :
  let resolver : Resolver := fun h =>
    if String.eqb h "example.org" then Ok "93.184.216.34"
    else Raise (mk_exn GaiError "[Errno -2] Name or service not known") in
  (check_dns_record_exists resolver "example.org"
   = Ok (true, Some "93.184.216.34")
   /\ exit_code (script resolver "example.org") = 0)
  /\ (check_dns_record_exists resolver "nowhere.invalid" = Ok (false, None)
      /\ exit_code (script resolver "nowhere.invalid") = 0).
Proof.
  intros resolver. split.
  - apply (dns_check_and_exit_codes resolver "example.org"). reflexivity.
  - apply (dns_check_and_exit_codes resolver "nowhere.invalid")
      with (e := mk_exn GaiError "[Errno -2] Name or service not known");
      reflexivity.
Defined.

End DnsFacts.

(* ================================================================== *)
(** * The OSPF and BGP checkers *)
(* ================================================================== *)

Module JuniperFacts.
Import Juniper.

Lemma counted_initial : counted initial_state.
Proof. reflexivity. Qed.

Lemma counted_step (st : LoopState) (nbr : Element) :
  counted st -> counted (process_neighbor st nbr).
Proof.
  unfold counted, process_neighbor; simpl. intros H.
  rewrite length_app; simpl.
  destruct (option_string_eqb _ _); lia.
Qed.

Lemma counted_loop (rpc : list Element) :
  forall st, counted st -> counted (fold_left process_neighbor rpc st).
Proof.
  induction rpc as [|nbr rpc IH]; simpl; intros st H;
    auto using counted_step.
Qed.

Lemma report_of_body dev instance area now r :
  get_ospf_neighbors dev instance area now = Ok r ->
  exists st,
    counted st
    /\ neighbors r = neighbors_so_far st
    /\ total_neighbors (summary r)
       = Z.of_nat (List.length (neighbors_so_far st))
    /\ full_state_neighbors (summary r) = full_state_count st
    /\ non_full_state_neighbors (summary r) = non_full_state_count st.
Proof.
  unfold get_ospf_neighbors, get_ospf_neighbors_body, bind.
  destruct (open dev); [|discriminate].
  destruct (fact _ "hostname"); [|discriminate].
  destruct (fact _ "model"); [|discriminate].
  destruct (fact _ "version"); [|discriminate].
  destruct (get_ospf_neighbor_information _ _ _) as [rpc|]; [|discriminate].
  intros E. injection E as <-. simpl.
  exists (fold_left process_neighbor rpc initial_state).
  split; [apply counted_loop, counted_initial | auto].
Qed.

(** Every failure of the fetch ends the run with the error document and
    exit code 1. *)
Lemma ospf_failure_exits_1 dev instance area now e :
  get_ospf_neighbors dev instance area now = Raise e ->
  main dev instance area now
  = mk_process [ErrorDoc (exn_str e) false] ["Error: " ++ exn_str e] 1.
Proof. unfold main. now intros ->. Qed.

End JuniperFacts.

Module CiscoFacts.
Import Cisco.

Section Facts.
Variable py : builtins.
Variable re : regex.

Lemma count_established_le (l : list Neighbor) :
  0 <= count_established l <= Z.of_nat (List.length l).
Proof.
  unfold count_established. split; [lia|].
  apply Nat2Z.inj_le. induction l as [|n l IH]; simpl; auto.
  destruct (String.eqb _ _); simpl; lia.
Qed.

Lemma summarize_complement (l : list Neighbor) :
  let s := summarize l in
  established_sessions s + down_sessions s = total_neighbors s
  /\ down_sessions s = total_neighbors s - established_sessions s
  /\ total_neighbors s = Z.of_nat (List.length l)
  /\ 0 <= down_sessions s.
Proof.
  pose proof (count_established_le l). unfold summarize; simpl. lia.
Qed.

Lemma returned_summary ssh host neighbor r :
  get_bgp_neighbors_body py re ssh host neighbor = Returned r ->
  summary r = summarize (neighbors r) /\ status r = None.
Proof.
  unfold get_bgp_neighbors_body.
  destruct (connect ssh); [|discriminate].
  destruct (run ssh "show version | include Software"); [|discriminate].
  destruct (run ssh "show running-config | include hostname");
    [|discriminate].
  destruct (run ssh "show ip bgp summary"); [|discriminate].
  destruct (run ssh (neighbors_command neighbor)); [|discriminate].
  destruct (parse_sections _ _ _ _); [|discriminate].
  intros E. injection E as <-. auto.
Qed.

Lemma report_summary ssh host neighbor r :
  get_bgp_neighbors py re ssh host neighbor = Ok r ->
  summary r = summarize (neighbors r).
Proof.
  unfold get_bgp_neighbors, handle.
  destruct (get_bgp_neighbors_body _ _ _ _ _) as [r'|e p h] eqn:B.
  - intros E. injection E as <-. now apply returned_summary in B.
  - destruct (is_instance [NoValidConnectionsError] e); [discriminate|].
    destruct (is_instance [AuthenticationException] e); [discriminate|].
    destruct (no_bgp_session _); [|discriminate].
    intros E. injection E as <-. reflexivity.
Qed.

(** The message of the fallback handler always passes the test of
    [main]. *)
Lemma fallback_is_bgp_related (message : string) :
  bgp_related
    (mk_exn RuntimeError
       ("Failed to retrieve BGP neighbor information: " ++ message))
  = true.
Proof. reflexivity. Qed.

Lemma no_bgp_session_mentions (message : string) :
  no_bgp_session message = true ->
  str_in "BGP" message || str_in "No existing session" message = true.
Proof.
  unfold no_bgp_session. intros H.
  apply orb_true_iff in H. destruct H as [H|H];
    [apply orb_true_iff in H; destruct H as [H|H]|].
  - rewrite H. apply orb_true_r.
  - apply (str_in_shorter "BGP" " not active") in H. now rewrite H.
  - apply str_in_tail in H. now rewrite H.
Qed.


(** C9.  An exception that is neither of the two paramiko classes and
    whose message contains "BGP" is answered by [main] with the "BGP not
    configured" report and exit code 0; and every failure inside
    [get_bgp_neighbors] that is neither of the two classes ends that way,
    whatever its message, because the fallback handler puts "BGP" into
    the message it raises. *)
Theorem generic_failure_reported_as_not_configured (host : string) :
  (forall e : exn,
      is_instance [NoValidConnectionsError; AuthenticationException] e
      = false ->
      str_in "BGP" (exn_str e) = true ->
      report_or_fail host (Raise e)
      = mk_process [ReportDoc (not_configured host "Cisco IOS-XE")] [] 0)
  /\ (forall (ssh : Session) (neighbor : option string) (e : exn)
             (platform hostname : option string),
         get_bgp_neighbors_body py re ssh host neighbor
         = Raised e platform hostname ->
         is_instance [NoValidConnectionsError; AuthenticationException] e
         = false ->
         exists r,
           main py re ssh host neighbor = mk_process [ReportDoc r] [] 0
           /\ neighbors r = []
           /\ status r
              = Some "BGP not configured or not active on this device").
Proof.
  split.
  - intros e C M. unfold report_or_fail, bgp_related.
    unfold is_instance in *. simpl in *.
    apply orb_false_iff in C. destruct C as [-> C].
    rewrite orb_false_r in C. rewrite C, M. reflexivity.
  - intros ssh neighbor e platform hostname B C.
    unfold main, get_bgp_neighbors. rewrite B. unfold handle.
    unfold is_instance in *. simpl in *.
    apply orb_false_iff in C. destruct C as [-> C].
    rewrite orb_false_r in C. rewrite C. simpl.
    destruct (no_bgp_session (exn_str e)).
    + eexists. repeat split.
    + exists (not_configured host "Cisco IOS-XE"). repeat split.
Qed.

(** C6, at the failing input: the TCP connection times out, which
    paramiko passes on as [socket.timeout], and the run ends with the
    "BGP not configured" report and exit code 0. *)
Theorem connect_timeout_exits_0 (host : string) (neighbor : option string) :
  main py re (Examples.unreachable (mk_exn OtherError "timed out"))
    host neighbor
  = mk_process [ReportDoc (not_configured host "Cisco IOS-XE")] [] 0.
Proof.
  unfold main, get_bgp_neighbors.
  change (get_bgp_neighbors_body py re _ host neighbor)
    with (Raised (mk_exn OtherError "timed out") None None).
  change (handle host _)
    with (Raise (A := Report)
            (mk_exn RuntimeError
               ("Failed to retrieve BGP neighbor information: "
                ++ "timed out"))).
  unfold report_or_fail. now rewrite fallback_is_bgp_related.
Qed.

(** The two paramiko classes do reach the error document, as long as
    their message does not itself mention BGP. *)
Lemma connection_failure_exits_1 ssh host neighbor e platform hostname :
  get_bgp_neighbors_body py re ssh host neighbor
  = Raised e platform hostname ->
  is_instance [NoValidConnectionsError; AuthenticationException] e = true ->
  str_in "BGP" (exn_str e) = false ->
  str_in "No existing session" (exn_str e) = false ->
  exists message,
    main py re ssh host neighbor
    = mk_process [ErrorDoc message false] ["Error: " ++ message] 1.
Proof.
  intros B C M1 M2. unfold main, get_bgp_neighbors. rewrite B. unfold handle.
  destruct (is_instance [NoValidConnectionsError] e) eqn:C1;
    [|destruct (is_instance [AuthenticationException] e) eqn:C2].
  - eexists. unfold report_or_fail, bgp_related. simpl.
    rewrite M1, M2. reflexivity.
  - eexists. unfold report_or_fail, bgp_related. simpl.
    rewrite M1, M2. reflexivity.
  - unfold is_instance in *. simpl in *.
    rewrite orb_false_r in *. rewrite C1, C2 in C. discriminate.
Qed.
End Facts.


Lemma generic_failure_reported_as_not_configured_witness :
  report_or_fail "10.1.1.1"
    (Raise (mk_exn RuntimeError "BGP table unavailable"))
  = mk_process [ReportDoc (not_configured "10.1.1.1" "Cisco IOS-XE")] [] 0
  /\ exists r,
       main Examples.plain Examples.no_match
         (Examples.unreachable Examples.banner_error) "10.1.1.1" None
       = mk_process [ReportDoc r] [] 0
       /\ neighbors r = []
       /\ status r = Some "BGP not configured or not active on this device".
Proof.
  destruct (generic_failure_reported_as_not_configured Examples.plain
              Examples.no_match "10.1.1.1") as [A B].
  split.
  - apply A; reflexivity.
  - apply (B (Examples.unreachable Examples.banner_error) None
             Examples.banner_error None None); reflexivity.
Defined.

End CiscoFacts.

(* ================================================================== *)
(** * Summary counters *)
(* ================================================================== *)

(** C4.  In the BGP report the established and down counters add up to
    the total, the down counter being the total minus the established one;
    in the OSPF report the full and non-full counters add up to the total
    likewise.  The total is the number of neighbors listed. *)
Theorem complementary_counters :
  (forall py re ssh host neighbor r,
      Cisco.get_bgp_neighbors py re ssh host neighbor = Ok r ->
      let s := Cisco.summary r in
      Cisco.established_sessions s + Cisco.down_sessions s
      = Cisco.total_neighbors s
      /\ Cisco.down_sessions s
         = Cisco.total_neighbors s - Cisco.established_sessions s
      /\ Cisco.total_neighbors s
         = Z.of_nat (List.length (Cisco.neighbors r))
      /\ Cisco.established_sessions s
         = Cisco.count_established (Cisco.neighbors r))
  /\ (forall dev instance area now r,
         Juniper.get_ospf_neighbors dev instance area now = Ok r ->
         let s := Juniper.summary r in
         Juniper.full_state_neighbors s + Juniper.non_full_state_neighbors s
         = Juniper.total_neighbors s
         /\ Juniper.non_full_state_neighbors s
            = Juniper.total_neighbors s - Juniper.full_state_neighbors s
         /\ Juniper.total_neighbors s
            = Z.of_nat (List.length (Juniper.neighbors r))).
Proof.
  split.
  - intros py re ssh host neighbor r E s. subst s.
    rewrite (CiscoFacts.report_summary _ _ _ _ _ _ E).
    pose proof (CiscoFacts.summarize_complement (Cisco.neighbors r)) as H.
    simpl in H. intuition.
  - intros dev instance area now r E s. subst s.
    destruct (JuniperFacts.report_of_body _ _ _ _ _ E)
      as (st & C & N & T & F & NF).
    unfold Juniper.counted in C. rewrite T, F, NF, N. lia.
Qed.

Lemma complementary_counters_witness :
  let bgp :=
    {| Cisco.device := {| Cisco.hostname := "10.1.1.1";
                          Cisco.platform := "Cisco IOS" |};
       Cisco.bgp := {| Cisco.local_as := "Unknown";
                       Cisco.router_id := "Unknown" |};
       Cisco.neighbors :=
         [ {| Cisco.neighbor_ip := "192.0.2.1";
              Cisco.remote_as := "65001";
              Cisco.state := "Established";
              Cisco.uptime := "N/A";
              Cisco.prefixes_received := 0;
              Cisco.prefixes_sent := 0;
              Cisco.description := "" |} ];
       Cisco.summary := {| Cisco.total_neighbors := 1;
                           Cisco.established_sessions := 1;
                           Cisco.down_sessions := 0 |};
       Cisco.status := None |} in
  let dev :=
    Examples.router
      [("hostname", VStr "r1"); ("model", VStr "MX480");
       ("version", VStr "20.4R3")]
      [ [("neighbor-id", "10.0.0.1"); ("ospf-neighbor-state", "Full")];
        [("neighbor-id", "10.0.0.2"); ("ospf-neighbor-state", "Init")] ] in
  Cisco.get_bgp_neighbors Examples.plain Examples.one_neighbor
    (Examples.answering "BGP neighbor is 192.0.2.1") "10.1.1.1" None = Ok bgp
  /\ (let s := Cisco.summary bgp in
      Cisco.established_sessions s + Cisco.down_sessions s
      = Cisco.total_neighbors s
      /\ Cisco.down_sessions s
         = Cisco.total_neighbors s - Cisco.established_sessions s
      /\ Cisco.total_neighbors s
         = Z.of_nat (List.length (Cisco.neighbors bgp))
      /\ Cisco.established_sessions s
         = Cisco.count_established (Cisco.neighbors bgp))
  /\ exists r,
       Juniper.get_ospf_neighbors dev "master" None "2025-05-07T10:15:30"
       = Ok r
       /\ (let s := Juniper.summary r in
           Juniper.full_state_neighbors s + Juniper.non_full_state_neighbors s
           = Juniper.total_neighbors s
           /\ Juniper.non_full_state_neighbors s
              = Juniper.total_neighbors s - Juniper.full_state_neighbors s
           /\ Juniper.total_neighbors s
              = Z.of_nat (List.length (Juniper.neighbors r))).
Proof.
  intros bgp dev.
  destruct complementary_counters as [A B].
  split; [reflexivity|]. split.
  - apply (A Examples.plain Examples.one_neighbor
             (Examples.answering "BGP neighbor is 192.0.2.1") "10.1.1.1"
             None bgp). reflexivity.
  - eexists. split; [reflexivity|].
    apply (B dev "master" None "2025-05-07T10:15:30"). reflexivity.
Defined.

(* ================================================================== *)
(** * Binary64 numbers *)
(* ================================================================== *)

Module FloatFacts.

Lemma shr_1_nonneg (mrs : shr_record) :
  0 <= shr_m mrs -> 0 <= shr_m (shr_1 mrs).
Proof.
  destruct mrs as [m r s]. simpl.
  destruct m as [|[p|p|]|p]; simpl; lia.
Qed.

Lemma iter_shr_1_nonneg (p : positive) :
  forall mrs, 0 <= shr_m mrs -> 0 <= shr_m (iter_pos shr_1 p mrs).
Proof.
  induction p as [p IH|p IH|]; simpl; intros mrs H;
    auto using shr_1_nonneg.
Qed.

Lemma shr_fexp_nonneg (m e : Z) (l : location) :
  0 <= m -> 0 <= shr_m (fst (shr_fexp prec emax m e l)).
Proof.
  intros H. unfold shr_fexp, shr.
  assert (0 <= shr_m (shr_record_of_loc m l)) as H0
    by (destruct l as [|[]]; exact H).
  destruct (fexp prec emax (Zdigits2 m + e) - e); simpl; auto.
  now apply iter_shr_1_nonneg.
Qed.

Lemma round_nearest_even_nonneg (m : Z) (l : location) :
  0 <= m -> 0 <= round_nearest_even m l.
Proof.
  intros H. destruct l as [|[]]; simpl; try lia.
  destruct (Z.even m); lia.
Qed.

Lemma binary_round_aux_signed (s : bool) (m e : Z) (l : location) :
  0 <= m -> signed s (binary_round_aux prec emax s m e l).
Proof.
  intros H. unfold binary_round_aux.
  pose proof (shr_fexp_nonneg m e l H) as H1.
  destruct (shr_fexp prec emax m e l) as [mrs' e']. simpl in H1.
  pose proof (round_nearest_even_nonneg _ (loc_of_shr_record mrs') H1) as H2.
  pose proof (shr_fexp_nonneg _ e' loc_Exact H2) as H3.
  destruct (shr_fexp prec emax _ e' loc_Exact) as [mrs'' e'']. simpl in H3.
  unfold signed.
  destruct (shr_m mrs''); [reflexivity | | lia].
  destruct (e'' <=? emax - prec); reflexivity.
Qed.

Lemma div_core_nonneg (mx my : positive) (ex ey : Z) :
  0 <= fst (fst (SFdiv_core_binary prec emax (Zpos mx) ex (Zpos my) ey)).
Proof.
  unfold SFdiv_core_binary.
  set (s := ex - ey - _).
  set (m' := match s with
             | Z0 => Zpos mx
             | Zpos _ => Z.shiftl (Zpos mx) s
             | Zneg _ => 0
             end).
  assert (0 <= m') as H.
  { subst m'. destruct s; try lia. apply Z.shiftl_nonneg. lia. }
  pose proof (Z.div_pos m' (Zpos my) H ltac:(lia)) as D.
  unfold Z.div in D. destruct (Z.div_eucl m' (Zpos my)). exact D.
Qed.

Lemma fdiv_finite_signed (sx sy : bool) (mx my : positive) (ex ey : Z) :
  signed (xorb sx sy) (fdiv (S754_finite sx mx ex) (S754_finite sy my ey)).
Proof.
  unfold fdiv, SFdiv.
  pose proof (div_core_nonneg mx my ex ey) as H.
  destruct (SFdiv_core_binary _ _ _ _ _ _) as [[q e] l]. simpl in H.
  now apply binary_round_aux_signed.
Qed.

Lemma fmul_finite_signed (sx sy : bool) (mx my : positive) (ex ey : Z) :
  signed (xorb sx sy) (fmul (S754_finite sx mx ex) (S754_finite sy my ey)).
Proof.
  unfold fmul, SFmul. apply binary_round_aux_signed. lia.
Qed.

(** Division by a positive finite number and multiplication by one keep
    the sign of a number that has one. *)
Lemma fdiv_positive_signed (s : bool) (x : float) (my : positive) (ey : Z) :
  signed s x -> signed s (fdiv x (S754_finite false my ey)).
Proof.
  destruct x as [sx|sx| |sx mx ex]; simpl; intros H; try contradiction; subst.
  - now destruct s.
  - now destruct s.
  - pose proof (fdiv_finite_signed s false mx my ex ey) as K.
    now rewrite xorb_false_r in K.
Qed.

Lemma fmul_positive_signed (s : bool) (x : float) (my : positive) (ey : Z) :
  signed s x -> signed s (fmul x (S754_finite false my ey)).
Proof.
  destruct x as [sx|sx| |sx mx ex]; simpl; intros H; try contradiction; subst.
  - now destruct s.
  - now destruct s.
  - pose proof (fmul_finite_signed s false mx my ex ey) as K.
    now rewrite xorb_false_r in K.
Qed.

Lemma round2_float_signed (s : bool) (x : float) :
  signed s x -> signed s (round2_float x).
Proof.
  destruct x as [sx|sx| |sx mx ex]; simpl; auto.
  intros ->. destruct (hundredths mx ex); simpl; auto.
  pose proof (fdiv_finite_signed s false p 100 0 0) as K.
  now rewrite xorb_false_r in K.
Qed.

Lemma signed_false_nonneg (f : float) :
  signed false f -> nonneg (PFloat f).
Proof.
  destruct f as [s|s| |s m e]; simpl; intros H; try contradiction; subst;
    try reflexivity.
  destruct e; reflexivity.
Qed.

Lemma zero_nonneg (s : bool) : nonneg (PFloat (S754_zero s)).
Proof. reflexivity. Qed.

Lemma nonneg_float (f : float) :
  nonneg (PFloat f) -> (exists s, f = S754_zero s) \/ signed false f.
Proof.
  destruct f as [s|s| |s m e]; unfold nonneg, py_le; simpl.
  - eauto.
  - destruct s; [discriminate | auto].
  - discriminate.
  - destruct s; [|auto]. destruct e; discriminate.
Qed.

Lemma positive_float (f : float) :
  positive_num (PFloat f) ->
  f = S754_infinity false \/ exists m e, f = S754_finite false m e.
Proof.
  destruct f as [s|s| |s m e]; unfold positive_num, py_gt; simpl.
  - discriminate.
  - destruct s; [discriminate | auto].
  - discriminate.
  - destruct s; [|eauto]. destruct e; discriminate.
Qed.

Lemma positive_int (n : Z) : positive_num (PInt n) -> 0 < n.
Proof.
  unfold positive_num, py_gt; simpl. unfold Qle_bool; simpl.
  intros H. apply negb_true_iff, Z.leb_gt in H. lia.
Qed.

End FloatFacts.

(* ================================================================== *)
(** * The port-utilization report *)
(* ================================================================== *)

Module AristaFacts.
Import Arista AristaSpec FloatFacts.

Lemma as_float_100 : as_float (PInt 100) = Ok hundred.
Proof. reflexivity. Qed.

Lemma as_float_0 : as_float (PInt 0) = Ok (S754_zero false).
Proof. reflexivity. Qed.

Lemma utilization_positive (rate : pynum) (m : positive) (e : Z) :
  rate_shape rate ->
  let capacity := PFloat (S754_finite false m e) in
  py_truediv rate capacity
  = Ok (PFloat (fdiv (operand rate) (S754_finite false m e)))
  /\ py_mul (PFloat (fdiv (operand rate) (S754_finite false m e))) (PInt 100)
     = Ok (PFloat (fmul (fdiv (operand rate) (S754_finite false m e)) hundred))
  /\ utilization rate capacity
     = Ok (PFloat (fmul (fdiv (operand rate) (S754_finite false m e)) hundred)).
Proof.
  intros [->|[f ->]] capacity; subst capacity; unfold utilization.
  - assert (py_gt (PFloat (S754_finite false m e)) (PInt 0) = true) as ->
      by (destruct e; reflexivity).
    repeat split.
  - assert (py_gt (PFloat (S754_finite false m e)) (PInt 0) = true) as ->
      by (destruct e; reflexivity).
    repeat split.
Qed.

Lemma utilization_total (rate capacity : pynum) :
  rate_shape rate -> bandwidth_shape capacity ->
  exists u, utilization rate capacity = Ok u.
Proof.
  intros Hr [->|(f & -> & Hf)].
  - exists (PInt 0). reflexivity.
  - destruct (py_gt (PFloat f) (PInt 0)) eqn:G.
    + destruct (positive_float f G) as [->|(m & e & ->)].
      * now destruct (Hf false).
      * eexists. apply utilization_positive, Hr.
    + exists (PInt 0). unfold utilization. now rewrite G.
Qed.

Section Facts.
Variable py : builtins.

(** The end of an inner [try]: the exception was caught and the preset
    value stands, or it was not and nothing is returned. *)
Ltac preset :=
  match goal with
  | |- (if is_instance ?ks ?e then _ else _) = Ok _ -> _ =>
      destruct (is_instance ks e); [|discriminate]
  end;
  let E := fresh "E" in intros E; injection E as <-.

Lemma get_rate_shape rates interface_name field x :
  get_rate py rates interface_name field = Ok x -> rate_shape x.
Proof.
  unfold get_rate, try_default, bind.
  destruct (py_contains rates interface_name) as [[|]|e];
    [| intros E; injection E as <-; now left | preset; now left].
  destruct (py_get rates interface_name (VDict [])) as [entry|e];
    [| preset; now left].
  destruct (py_get entry field (VInt 0)) as [raw|e]; [| preset; now left].
  destruct (py_float py raw) as [f|e]; [| preset; now left].
  intros E; injection E as <-. right; eauto.
Qed.

Lemma truediv_million_shape (bits : Z) (x : pynum) :
  py_truediv (PInt bits) (PInt 1000000) = Ok x -> bandwidth_shape x.
Proof.
  unfold py_truediv. change (1000000 =? 0) with false. cbv iota.
  destruct bits as [|p|p].
  - intros E; injection E as <-. right.
    eexists; split; [reflexivity|discriminate].
  - destruct (fdiv _ _) eqn:D; try discriminate;
      intros E; injection E as <-; right; eexists; split;
      try reflexivity; discriminate.
  - destruct (fdiv _ _) eqn:D; try discriminate;
      intros E; injection E as <-; right; eexists; split;
      try reflexivity; discriminate.
Qed.

Lemma get_bandwidth_shape status x :
  get_bandwidth py status = Ok x -> bandwidth_shape x.
Proof.
  unfold get_bandwidth, try_default, bind.
  destruct (py_contains status "bandwidth") as [[|]|e];
    [| intros E; injection E as <-; now left | preset; now left].
  destruct (py_get status "bandwidth" (VInt 0)) as [raw|e];
    [| preset; now left].
  destruct (py_int py raw) as [bits|e]; [| preset; now left].
  destruct (py_truediv (PInt bits) (PInt 1000000)) as [q|e] eqn:D;
    [| preset; now left].
  intros E; injection E as <-. eapply truediv_million_shape, D.
Qed.

(** ** The loop *)

Section Tables.
Variables interface_descriptions interface_rates interface_errors : pyval.
Variable threshold : Z.

Lemma process_interface_appends (st : LoopState) (item : string * pyval) :
  interfaces_so_far
    (process_interface py interface_descriptions interface_rates
       interface_errors threshold st item)
  = (interfaces_so_far st
     ++ appended py interface_descriptions interface_rates interface_errors
          threshold item)%list.
Proof.
  destruct item as [interface_name status].
  unfold process_interface, appended, interface_item, bind;
    simpl fst; simpl snd.
  destruct (prefix "Ethernet" interface_name); simpl;
    [|now rewrite app_nil_r].
  repeat match goal with
  | |- context [match ?r with Ok _ => _ | Raise _ => _ end] =>
      destruct r; simpl; try now rewrite app_nil_r
  | |- context [if ?c then _ else _] =>
      destruct c; simpl; try now rewrite app_nil_r
  end; reflexivity.
Qed.

Lemma process_interfaces_appends (items : list (string * pyval)) :
  forall st,
    interfaces_so_far
      (fold_left (process_interface py interface_descriptions interface_rates
                    interface_errors threshold) items st)
    = (interfaces_so_far st
       ++ flat_map (appended py interface_descriptions interface_rates
                      interface_errors threshold) items)%list.
Proof.
  induction items as [|item items IH]; simpl; intros st.
  - now rewrite app_nil_r.
  - now rewrite IH, process_interface_appends, app_assoc.
Qed.

Lemma collected_items (items : list (string * pyval)) :
  interfaces_so_far
    (process_interfaces py interface_descriptions interface_rates
       interface_errors threshold items)
  = flat_map (appended py interface_descriptions interface_rates
                interface_errors threshold) items.
Proof. unfold process_interfaces. now rewrite process_interfaces_appends. Qed.

End Tables.

Lemma interface_item_inv D R E threshold interface_name status info :
  interface_item py D R E threshold interface_name status = Ok info ->
  exists rate_in rate_out u_in u_out,
    get_bandwidth py status = Ok (bandwidth_mbps info)
    /\ get_rate py R interface_name "inRate" = Ok rate_in
    /\ get_rate py R interface_name "outRate" = Ok rate_out
    /\ utilization rate_in (bandwidth_mbps info) = Ok u_in
    /\ utilization rate_out (bandwidth_mbps info) = Ok u_out
    /\ name info = interface_name
    /\ input_rate_mbps info = round2 rate_in
    /\ output_rate_mbps info = round2 rate_out
    /\ input_utilization info = round2 u_in
    /\ output_utilization info = round2 u_out
    /\ high_utilization info
       = py_gt u_in (PInt threshold) || py_gt u_out (PInt threshold).
Proof.
  unfold interface_item, bind.
  destruct (get_description D interface_name); [|discriminate].
  destruct (get_bandwidth py status) as [bw|]; [|discriminate].
  destruct (get_oper_status status); [|discriminate].
  destruct (get_rate py R interface_name "inRate") as [rate_in|];
    [|discriminate].
  destruct (get_rate py R interface_name "outRate") as [rate_out|];
    [|discriminate].
  destruct (utilization rate_in bw) as [u_in|] eqn:Ui; [|discriminate].
  destruct (utilization rate_out bw) as [u_out|] eqn:Uo; [|discriminate].
  destruct (get_errors py E interface_name "inErrors"); [|discriminate].
  destruct (get_errors py E interface_name "outErrors"); [|discriminate].
  intros H; injection H as <-. simpl.
  exists rate_in, rate_out, u_in, u_out. repeat split; auto.
Qed.

Lemma appended_inv D R E threshold items info :
  In info (flat_map (appended py D R E threshold) items) ->
  exists interface_name status,
    In (interface_name, status) items
    /\ prefix "Ethernet" interface_name = true
    /\ interface_item py D R E threshold interface_name status = Ok info.
Proof.
  intros H. apply in_flat_map in H. destruct H as ([n s] & I & H).
  unfold appended in H; simpl in H.
  destruct (prefix "Ethernet" n) eqn:P; [|contradiction].
  destruct (interface_item py D R E threshold n s) eqn:X; [|contradiction].
  destruct H as [<-|[]]. eauto.
Qed.

(** ** The sort *)

Lemma insert_by_rank_perm (x : InterfaceInfo) (l : list InterfaceInfo) :
  Permutation (insert_by_rank x l) (x :: l).
Proof.
  induction l as [|y l IH]; simpl; auto.
  destruct (py_lt (rank x) (rank y)); auto.
  rewrite IH. apply perm_swap.
Qed.

Lemma sort_by_rank_perm (l : list InterfaceInfo) :
  Permutation (sort_by_rank l) l.
Proof.
  induction l as [|x l IH]; simpl; auto.
  rewrite insert_by_rank_perm. now constructor.
Qed.

Lemma lt_ge (a b : pynum) : py_lt a b = true -> py_ge b a = true.
Proof. unfold py_lt, py_ge, py_le. now intros ->. Qed.

Lemma not_lt_ge (a b : pynum) :
  value a <> XNaN -> value b <> XNaN ->
  py_lt a b = false -> py_ge a b = true.
Proof.
  unfold py_lt, py_ge, py_le.
  destruct (value a) as [| |p|], (value b) as [| |q|]; simpl;
    try congruence; try discriminate.
  intros _ _ H. apply negb_false_iff, Qle_bool_iff in H.
  apply orb_true_iff.
  destruct (Qlt_le_dec q p) as [L|L].
  - left. apply negb_true_iff. destruct (Qle_bool p q) eqn:X; auto.
    apply Qle_bool_iff in X. exfalso. eapply Qlt_not_le; eauto.
  - right. apply Qeq_bool_iff. now apply Qle_antisym.
Qed.

Lemma insert_by_rank_sorted (x : InterfaceInfo) (l : list InterfaceInfo) :
  comparable x -> Forall comparable l ->
  Sorted ge_rank l -> Sorted ge_rank (insert_by_rank x l).
Proof.
  intros Cx Cl S. induction S as [|y l S IH H]; simpl.
  - repeat constructor.
  - apply Forall_cons_iff in Cl. destruct Cl as [Cy Cl].
    destruct (py_lt (rank x) (rank y)) eqn:L.
    + constructor; auto.
      destruct H as [|z l' H]; simpl.
      * constructor. now apply lt_ge.
      * destruct (py_lt (rank x) (rank z)); constructor; auto.
        now apply lt_ge.
    + constructor; [now constructor|].
      constructor. now apply not_lt_ge.
Qed.

Lemma insert_by_rank_comparable (x : InterfaceInfo) (l : list InterfaceInfo) :
  comparable x -> Forall comparable l -> Forall comparable (insert_by_rank x l).
Proof.
  intros Cx Cl. eapply Permutation_Forall.
  - symmetry. apply insert_by_rank_perm.
  - now constructor.
Qed.

Lemma sort_by_rank_sorted (l : list InterfaceInfo) :
  Forall comparable l -> Sorted ge_rank (sort_by_rank l).
Proof.
  induction l as [|x l IH]; simpl; intros H; [constructor|].
  apply Forall_cons_iff in H. destruct H as [Cx Cl].
  apply insert_by_rank_sorted; auto.
  eapply Permutation_Forall; [symmetry; apply sort_by_rank_perm | auto].
Qed.

Lemma sorted_adjacent (l1 l2 : list InterfaceInfo) (a b : InterfaceInfo) :
  Sorted ge_rank (l1 ++ a :: b :: l2) -> ge_rank a b.
Proof.
  induction l1 as [|x l1 IH]; simpl; intros S.
  - apply Sorted_inv in S. destruct S as [_ H]. now apply HdRel_inv in H.
  - apply Sorted_inv in S. tauto.
Qed.

(** ** The report *)

Lemma report_of_fetch connection threshold now r :
  get_port_utilization py connection threshold now = Ok r ->
  exists device_info D items R E,
    fetch connection = Ok (device_info, D, items, R, E)
    /\ device r = device_info
    /\ timestamp r = now
    /\ interfaces r
       = sort_by_rank (flat_map (appended py D R E threshold) items)
    /\ total_interfaces (summary r) = Z.of_nat (List.length (interfaces r)).
Proof.
  unfold get_port_utilization, get_port_utilization_body, fetch, bind.
  repeat match goal with
  | |- context [match ?x with Ok _ => _ | Raise _ => _ end] =>
      lazymatch x with
      | context [match _ with Ok _ => _ | Raise _ => _ end] => fail
      | _ => destruct x; try discriminate
      end
  end.
  intros H; injection H as <-; simpl.
  do 5 eexists. split; [reflexivity|]. rewrite collected_items. auto.
Qed.

Lemma fetch_succeeds connection threshold now device_info D items R E :
  fetch connection = Ok (device_info, D, items, R, E) ->
  exists r, get_port_utilization py connection threshold now = Ok r.
Proof.
  unfold get_port_utilization, get_port_utilization_body, fetch, bind.
  repeat match goal with
  | |- context [match ?x with Ok _ => _ | Raise _ => _ end] =>
      lazymatch x with
      | context [match _ with Ok _ => _ | Raise _ => _ end] => fail
      | _ => destruct x; try discriminate
      end
  end.
  intros _. eauto.
Qed.

(** ** Utilization *)

Lemma operand_signed (rate : pynum) :
  rate_shape rate -> nonneg rate ->
  (exists s, operand rate = S754_zero s) \/ signed false (operand rate).
Proof.
  intros [->|[f ->]] N; simpl.
  - left. now exists false.
  - now apply nonneg_float.
Qed.

Lemma shown_utilization_intro (rate capacity percent : pynum) :
  rate_shape rate -> bandwidth_shape capacity ->
  utilization rate capacity = Ok percent ->
  shown_utilization rate capacity (round2 percent).
Proof.
  intros Hr Hc U. unfold shown_utilization.
  split; [eauto|].
  destruct (py_gt capacity (PInt 0)) eqn:G.
  - assert (exists m e, capacity = PFloat (S754_finite false m e))
      as (m & e & ->).
    { destruct Hc as [->|(f & -> & Hf)]; [discriminate|].
      destruct (positive_float f G) as [->|(m & e & ->)];
        [now destruct (Hf false) | eauto]. }
    destruct (utilization_positive rate m e Hr) as (D & M & U').
    rewrite U' in U. injection U as <-.
    split; [eauto|]. split; [discriminate|].
    intros N. simpl. apply operand_signed in N; [|assumption].
    destruct N as [[s ->]|N].
    + apply zero_nonneg.
    + apply signed_false_nonneg, round2_float_signed.
      apply fmul_positive_signed, fdiv_positive_signed, N.
  - unfold utilization in U. rewrite G in U. injection U as <-.
    split; [unfold positive_num; congruence|].
    split; reflexivity.
Qed.



(** ** Unreadable fields *)

Lemma zero_shape (z : pynum) : zero z -> rate_shape z.
Proof. intros [->| ->]; [now left | right; eauto]. Qed.

Lemma utilization_of_zero (z capacity : pynum) :
  zero z -> bandwidth_shape capacity ->
  exists u, utilization z capacity = Ok u /\ zero (round2 u).
Proof.
  intros Z [->|(f & -> & Hf)].
  - exists (PInt 0). split; [reflexivity | now left].
  - destruct (py_gt (PFloat f) (PInt 0)) eqn:G.
    + destruct (positive_float f G) as [->|(m & e & ->)];
        [now destruct (Hf false)|].
      destruct (utilization_positive z m e (zero_shape z Z)) as (_ & _ & U).
      rewrite U. eexists; split; [reflexivity|].
      destruct Z as [-> | ->]; right; reflexivity.
    + exists (PInt 0). unfold utilization. rewrite G.
      split; [reflexivity | now left].
Qed.

Lemma get_rate_ext rates rates' interface_name field :
  lookup interface_name rates' = lookup interface_name rates ->
  get_rate py (VDict rates') interface_name field
  = get_rate py (VDict rates) interface_name field.
Proof. unfold get_rate; simpl. now intros ->. Qed.

Lemma item_name a b c d n s info :
  interface_item py a b c d n s = Ok info -> name info = n.
Proof.
  intros X. apply interface_item_inv in X.
  destruct X as (? & ? & ? & ? & X). tauto.
Qed.

Lemma forall2_right {A B} (P : A -> B -> Prop) (l : list A) (l' : list B) :
  Forall2 P l l' -> forall b, In b l' -> exists a, In a l /\ P a b.
Proof.
  induction 1 as [|a b l l' H F IH]; simpl; [contradiction|].
  intros b' [<-|I]; [eauto|].
  destruct (IH b' I) as (a' & ? & ?). eauto.
Qed.

Lemma rejected_float (v : pyval) :
  rejected_by_float py v ->
  exists e, py_float py v = Raise e
            /\ is_instance [TypeError; KeyError; ValueError] e = true.
Proof.
  destruct v; simpl; try contradiction;
    try (intros _; eexists; split; reflexivity).
  intros ->. eexists; split; reflexivity.
Qed.

Lemma rejected_int (v : pyval) :
  rejected_by_int py v ->
  exists e, py_int py v = Raise e
            /\ is_instance [TypeError; KeyError; ValueError] e = true.
Proof.
  destruct v as [| | |f| | |]; simpl; try contradiction;
    try (intros _; eexists; split; reflexivity).
  - destruct f; try contradiction. intros _. eexists; split; reflexivity.
  - intros ->. eexists; split; reflexivity.
Qed.

Lemma unreadable_rate rates interface_name field :
  unreadable (rejected_by_float py) rates interface_name field ->
  exists z, get_rate py (VDict rates) interface_name field = Ok z /\ zero z.
Proof.
  unfold get_rate, zero, try_default, bind, py_contains, py_get.
  intros [H|entry H F|entry v H F B]; rewrite H.
  - eauto.
  - rewrite F. simpl. eauto.
  - rewrite F. destruct (rejected_float v B) as (e & -> & I).
    rewrite I. eauto.
Qed.

Lemma unreadable_errors errors interface_name field :
  unreadable (rejected_by_int py) errors interface_name field ->
  get_errors py (VDict errors) interface_name field = Ok 0.
Proof.
  unfold get_errors, try_default, bind, py_contains, py_get.
  intros [H|entry H F|entry v H F B]; rewrite H.
  - reflexivity.
  - rewrite F. reflexivity.
  - rewrite F. destruct (rejected_int v B) as (e & -> & I).
    now rewrite I.
Qed.

Lemma get_errors_ext errors errors' interface_name field :
  lookup interface_name errors' = lookup interface_name errors ->
  get_errors py (VDict errors') interface_name field
  = get_errors py (VDict errors) interface_name field.
Proof. unfold get_errors; simpl. now intros ->. Qed.

(** What a change of a rate field does to the rate and its utilization. *)
Lemma rate_change (damaged : bool) (R R' : list (string * pyval))
    (interface_name field : string) (capacity : pynum) :
  bandwidth_shape capacity ->
  field_change damaged
    (unreadable (rejected_by_float py) R' interface_name field)
    (get_rate py (VDict R) interface_name field)
    (get_rate py (VDict R') interface_name field) ->
  match get_rate py (VDict R) interface_name field,
        get_rate py (VDict R') interface_name field with
  | Ok x, Ok y =>
      exists ux uy,
        utilization x capacity = Ok ux
        /\ utilization y capacity = Ok uy
        /\ kept_or_zero damaged (round2 x) (round2 y)
        /\ kept_or_zero damaged (round2 ux) (round2 uy)
  | Raise _, Raise _ => True
  | _, _ => False
  end.
Proof.
  intros Sb. destruct damaged; simpl.
  - intros (U & x & Hx).
    destruct (unreadable_rate _ _ _ U) as (z & Hz & Z).
    rewrite Hx, Hz.
    destruct (utilization_total x capacity (get_rate_shape _ _ _ _ Hx) Sb)
      as [ux Ux].
    destruct (utilization_of_zero z capacity Z Sb) as (uz & Uz & Zu).
    exists ux, uz. repeat split; auto.
    destruct Z as [-> | ->]; [left|right]; reflexivity.
  - intros ->.
    destruct (get_rate py (VDict R) interface_name field) as [x|] eqn:Hx;
      [|exact I].
    destruct (utilization_total x capacity (get_rate_shape _ _ _ _ Hx) Sb)
      as [ux Ux].
    exists ux, ux. auto.
Qed.

Lemma errors_change (damaged : bool) (E E' : list (string * pyval))
    (interface_name field : string) :
  field_change damaged
    (unreadable (rejected_by_int py) E' interface_name field)
    (get_errors py (VDict E) interface_name field)
    (get_errors py (VDict E') interface_name field) ->
  match get_errors py (VDict E) interface_name field,
        get_errors py (VDict E') interface_name field with
  | Ok x, Ok y => kept_or_zero_count damaged x y
  | Raise _, Raise _ => True
  | _, _ => False
  end.
Proof.
  destruct damaged; simpl.
  - intros (U & x & ->). now rewrite (unreadable_errors _ _ _ U).
  - intros ->. now destruct (get_errors py (VDict E) interface_name field).
Qed.

Section Damage.
Variable D : pyval.
Variables R R' E E' : list (string * pyval).
Variable threshold : Z.
Variable interface_name : string.
Variable d : Damage.
Hypothesis damage : damaged_tables py R R' E E' interface_name d.

Lemma damaged_item (status : pyval) :
  match interface_item py D (VDict R) (VDict E) threshold interface_name status,
        interface_item py D (VDict R') (VDict E') threshold interface_name status
  with
  | Ok a, Ok b => same_but d a b
  | Raise _, Raise _ => True
  | _, _ => False
  end.
Proof.
  unfold interface_item, bind.
  destruct (get_description D interface_name); [|exact I].
  destruct (get_bandwidth py status) as [bw|] eqn:B; [|exact I].
  pose proof (get_bandwidth_shape _ _ B) as Sb.
  destruct (get_oper_status status); [|exact I].
  pose proof (rate_change _ _ _ _ _ bw Sb (in_rate_change _ _ _ _ _ _ _ damage))
    as Hin.
  pose proof (rate_change _ _ _ _ _ bw Sb (out_rate_change _ _ _ _ _ _ _ damage))
    as Hout.
  pose proof (errors_change _ _ _ _ _ (in_errors_change _ _ _ _ _ _ _ damage))
    as Ein.
  pose proof (errors_change _ _ _ _ _ (out_errors_change _ _ _ _ _ _ _ damage))
    as Eout.
  destruct (get_rate py (VDict R) interface_name "inRate"),
           (get_rate py (VDict R') interface_name "inRate");
    try contradiction; [|exact I].
  destruct (get_rate py (VDict R) interface_name "outRate"),
           (get_rate py (VDict R') interface_name "outRate");
    try contradiction; [|exact I].
  destruct Hin as (ui & ui' & -> & -> & Ki & Kui).
  destruct Hout as (uo & uo' & -> & -> & Ko & Kuo).
  destruct (get_errors py (VDict E) interface_name "inErrors"),
           (get_errors py (VDict E') interface_name "inErrors");
    try contradiction; [|exact I].
  destruct (get_errors py (VDict E) interface_name "outErrors"),
           (get_errors py (VDict E') interface_name "outErrors");
    try contradiction; [|exact I].
  unfold same_but; simpl. auto 12.
Qed.

Lemma sibling_item (other : string) (status : pyval) :
  other <> interface_name ->
  interface_item py D (VDict R') (VDict E') threshold other status
  = interface_item py D (VDict R) (VDict E) threshold other status.
Proof.
  intros N. unfold interface_item.
  rewrite !(get_rate_ext R R' other _ (rates_elsewhere _ _ _ _ _ _ _ damage other N)).
  now rewrite !(get_errors_ext E E' other _ (errors_elsewhere _ _ _ _ _ _ _ damage other N)).
Qed.

Lemma damaged_items (items : list (string * pyval)) :
  Forall2 (unaffected_but interface_name d)
    (flat_map (appended py D (VDict R) (VDict E) threshold) items)
    (flat_map (appended py D (VDict R') (VDict E') threshold) items).
Proof.
  induction items as [|[n s] items IH]; simpl; [constructor|].
  apply Forall2_app; [|exact IH].
  unfold appended; simpl.
  destruct (prefix "Ethernet" n); [|constructor].
  destruct (String.eqb n interface_name) eqn:N.
  - apply String.eqb_eq in N. subst n.
    pose proof (damaged_item s) as H.
    destruct (interface_item py D (VDict R) (VDict E) threshold
                interface_name s) as [a|] eqn:A,
             (interface_item py D (VDict R') (VDict E') threshold
                interface_name s) as [b|];
      try contradiction; constructor; [|constructor].
    unfold unaffected_but.
    rewrite (item_name _ _ _ _ _ _ _ A), String.eqb_refl.
    exact H.
  - apply String.eqb_neq in N. rewrite (sibling_item n s N).
    destruct (interface_item py D (VDict R) (VDict E) threshold n s)
      as [a|] eqn:A; constructor; [|constructor].
    unfold unaffected_but. rewrite (item_name _ _ _ _ _ _ _ A).
    apply String.eqb_neq in N. now rewrite N.
Qed.

End Damage.

Lemma same_but_defaulted (d : Damage) (a b : InterfaceInfo) :
  same_but d a b -> defaulted d b.
Proof.
  unfold same_but, defaulted, kept_or_zero, kept_or_zero_count.
  intros (_ & _ & _ & _ & Ri & Ui & Ro & Uo & Ei & Eo).
  split; [|split; [|split]]; intros X; rewrite X in *; auto.
Qed.


End Facts.
(** Every failure of the connection or of a fetch ends the run with the
    error document and exit code 1. *)
Lemma port_failure_exits_1 py connect threshold now e :
  (node <- connect ;; get_port_utilization py node threshold now) = Raise e ->
  main py connect threshold now
  = mk_process [ErrorDoc (exn_str e) false] ["Error: " ++ exn_str e] 1.
Proof. unfold main. now intros ->. Qed.

(** A NaN rank is in order with no neighbour, on either side. *)
Lemma nan_rank_unordered (a b : InterfaceInfo) :
  value (rank a) = XNaN ->
  py_ge (rank a) (rank b) = false /\ py_ge (rank b) (rank a) = false.
Proof.
  unfold py_ge, py_le. intros ->. now destruct (value (rank b)).
Qed.

(** ** The scenario of the specification *)

(** C8, as amended.  In the scenario the report has one item, with
    bandwidth 1000.0, input utilization 70.0, which is not above the
    threshold 70, so that the flag is false, and output utilization
    10.0. *)
Theorem scenario_item (py : builtins) (host now : string) :
  exists r info,
    get_port_utilization py (scenario host) 70 now = Ok r
    /\ interfaces r = [info]
    /\ name info = "Ethernet1"
    /\ bandwidth_mbps info = PFloat (Examples.literal 1000 1)
    /\ input_utilization info = PFloat (Examples.literal 70 1)
    /\ py_gt (input_utilization info) (PInt 70) = false
    /\ high_utilization info = false
    /\ output_utilization info = PFloat (Examples.literal 10 1).
Proof.
  eexists. eexists. split; [vm_compute; reflexivity|].
  split; [reflexivity|]. vm_compute. repeat split.
Qed.

(** C8, as stated, fails: the output utilization is not 0.01. *)
Lemma scenario_output_utilization_is_not_0_01 :
  exists r info,
    get_port_utilization Examples.plain (scenario "10.1.1.1") 70
      "2025-05-07T10:15:30" = Ok r
    /\ interfaces r = [info]
    /\ py_eq (output_utilization info) (PFloat (Examples.literal 1 100))
       = false.
Proof.
  eexists. eexists. split; [vm_compute; reflexivity|].
  split; reflexivity.
Qed.




(** ** Instances *)




End AristaFacts.

(* ================================================================== *)
(** * Device identity *)
(* ================================================================== *)




(* ================================================================== *)
(** * The port report: counters, items, threshold, order, commands *)
(* ================================================================== *)

Module AristaReportFacts.
Import Arista AristaSpec AristaReportSpec AristaFacts.

Lemma tally_app {A} (p : A -> bool) (l : list A) (x : A) :
  tally p (l ++ [x]) = tally p l + (if p x then 1 else 0).
Proof.
  unfold tally. rewrite filter_app, length_app; simpl.
  destruct (p x); simpl; lia.
Qed.

Lemma tally_perm {A} (p : A -> bool) (l l' : list A) :
  Permutation l l' -> tally p l = tally p l'.
Proof.
  unfold tally. induction 1; simpl; try lia.
  - destruct (p x); simpl; lia.
  - destruct (p x), (p y); simpl; lia.
Qed.

Section Tally.
Variable py : builtins.
Variables D R E : pyval.
Variable threshold : Z.

Lemma tallied_step (seen : Z) (st : LoopState) (item : string * pyval) :
  tallied seen st ->
  tallied (seen + (if is_ethernet item then 1 else 0))
    (process_interface py D R E threshold st item).
Proof.
  destruct item as [interface_name status]. destruct st as [l h e a].
  unfold tallied, is_ethernet, process_interface; simpl.
  intros (H0 & He & Hh & Ha).
  destruct (prefix "Ethernet" interface_name); simpl;
    [|rewrite Z.add_0_r; auto].
  repeat match goal with
  | |- context [match ?r with Ok _ => _ | Raise _ => _ end] =>
      destruct r; simpl
  | |- context [if ?c then _ else _] =>
      lazymatch c with
      | context [if _ then _ else _] => fail
      | _ => let Q := fresh "Q" in destruct c eqn:Q; simpl
      end
  end;
  rewrite ?length_app, ?tally_app;
  set (te := tally has_errors l) in *;
  set (th := tally high_utilization l) in *;
  set (tu := tally is_up l) in *; clearbody te th tu;
  unfold is_up, has_errors; simpl; rewrite ?Q, ?Q0, ?Q1; simpl; lia.
Qed.

Lemma tallied_loop (items : list (string * pyval)) :
  forall seen st,
    tallied seen st ->
    tallied (seen + tally is_ethernet items)
      (fold_left (process_interface py D R E threshold) items st).
Proof.
  induction items as [|item items IH]; intros seen st H.
  - unfold tally; simpl. now rewrite Z.add_0_r.
  - simpl fold_left.
    replace (seen + tally is_ethernet (item :: items))
      with (seen + (if is_ethernet item then 1 else 0)
            + tally is_ethernet items).
    + apply IH, tallied_step, H.
    + unfold tally; simpl. destruct (is_ethernet item); simpl; lia.
Qed.
End Tally.

Section Summary.
Variable py : builtins.

(** The report is assembled from the state the loop ends in. *)
Lemma report_of_state connection threshold now r :
  get_port_utilization py connection threshold now = Ok r ->
  exists device_info D items R E,
    fetch connection = Ok (device_info, D, items, R, E)
    /\ device r = device_info
    /\ timestamp r = now
    /\ let st := process_interfaces py D R E threshold items in
       interfaces r = sort_by_rank (interfaces_so_far st)
       /\ total_interfaces (summary r)
          = Z.of_nat (List.length (interfaces r))
       /\ active_interfaces (summary r) = active_interfaces_count st
       /\ high_utilization_interfaces (summary r)
          = high_utilization_count st
       /\ error_interfaces (summary r) = error_interfaces_count st.
Proof.
  unfold get_port_utilization, get_port_utilization_body, fetch, bind.
  repeat match goal with
  | |- context [match ?x with Ok _ => _ | Raise _ => _ end] =>
      lazymatch x with
      | context [match _ with Ok _ => _ | Raise _ => _ end] => fail
      | _ => destruct x; try discriminate
      end
  end.
  intros H; injection H as <-; simpl.
  do 5 eexists. split; [reflexivity|]. auto 10.
Qed.

(** X1.  The summary of a report counts its items: the total is the
    length of the list and the error counter is the number of listed items
    with an error count above 0.  The counters of active and of highly
    utilized interfaces are at least the number of listed items that are up,
    or flagged, and exceed it by at most the number of Ethernet entries of
    the status table that are missing from the list. *)
Theorem summary_counts_items connection threshold now r
    device_info D items R E :
  get_port_utilization py connection threshold now = Ok r ->
  fetch connection = Ok (device_info, D, items, R, E) ->
  let s := summary r in
  let l := interfaces r in
  let left_out := tally is_ethernet items - total_interfaces s in
  total_interfaces s = Z.of_nat (List.length l)
  /\ 0 <= left_out
  /\ error_interfaces s = tally has_errors l
  /\ tally high_utilization l <= high_utilization_interfaces s
     <= tally high_utilization l + left_out
  /\ tally is_up l <= active_interfaces s <= tally is_up l + left_out.
Proof.
  intros G F.
  destruct (report_of_state _ _ _ _ G)
    as (? & ? & ? & ? & ? & F' & _ & _ & L & T & A & H & Er).
  rewrite F in F'. injection F' as <- <- <- <- <-.
  set (st := process_interfaces py D R E threshold items) in *.
  assert (K : tallied (tally is_ethernet items) st).
  { apply (tallied_loop py D R E threshold items 0 initial_state).
    unfold tallied, initial_state, tally; simpl. lia. }
  pose proof (sort_by_rank_perm (interfaces_so_far st)) as P.
  rewrite <- L in P. apply Permutation_sym in P.
  destruct K as (K0 & Ke & Kh & Ka).
  rewrite (tally_perm has_errors _ _ P) in Ke.
  rewrite (tally_perm high_utilization _ _ P) in Kh.
  rewrite (tally_perm is_up _ _ P) in Ka.
  rewrite (Permutation_length P) in K0, Kh, Ka.
  simpl. rewrite T, A, H, Er. repeat split; lia.
Qed.
End Summary.

Lemma summary_counts_items_witness :
  exists r device_info D items R E,
    get_port_utilization Examples.plain (null_rates_entry "10.1.1.1") 70
      "2025-05-07T10:15:30" = Ok r
    /\ fetch (null_rates_entry "10.1.1.1") = Ok (device_info, D, items, R, E)
    /\ tally is_ethernet items = 2
    /\ active_interfaces (summary r) = 2
    /\ let s := summary r in
       let l := interfaces r in
       let left_out := tally is_ethernet items - total_interfaces s in
       total_interfaces s = Z.of_nat (List.length l)
       /\ 0 <= left_out
       /\ error_interfaces s = tally has_errors l
       /\ tally high_utilization l <= high_utilization_interfaces s
          <= tally high_utilization l + left_out
       /\ tally is_up l <= active_interfaces s <= tally is_up l + left_out.
Proof.
  do 6 eexists.
  split; [vm_compute; reflexivity|].
  split; [vm_compute; reflexivity|].
  split; [reflexivity|]. split; [reflexivity|].
  eapply (summary_counts_items Examples.plain (null_rates_entry "10.1.1.1") 70
           "2025-05-07T10:15:30"); vm_compute; reflexivity.
Defined.

Section Items.
Variable py : builtins.

(** The values of an item that are copied from the tables. *)
Lemma interface_item_fields D R E threshold interface_name status info :
  interface_item py D R E threshold interface_name status = Ok info ->
  name info = interface_name
  /\ get_description D interface_name = Ok (description info)
  /\ get_oper_status status = Ok (Arista.status info)
  /\ get_bandwidth py status = Ok (bandwidth_mbps info).
Proof.
  unfold interface_item, bind.
  destruct (get_description D interface_name); [|discriminate].
  destruct (get_bandwidth py status) as [bw|]; [|discriminate].
  destruct (get_oper_status status); [|discriminate].
  destruct (get_rate py R interface_name "inRate"); [|discriminate].
  destruct (get_rate py R interface_name "outRate"); [|discriminate].
  destruct (utilization _ bw); [|discriminate].
  destruct (utilization _ bw); [|discriminate].
  destruct (get_errors py E interface_name "inErrors"); [|discriminate].
  destruct (get_errors py E interface_name "outErrors"); [|discriminate].
  intros H; injection H as <-. simpl. auto.
Qed.

Lemma get_oper_status_inv (status v : pyval) :
  get_oper_status status = Ok v ->
  exists entry,
    status = VDict entry /\ v = get_or entry "linkStatus" (VStr "unknown").
Proof.
  unfold get_oper_status, try_default, py_get.
  destruct status; try discriminate.
  intros H; injection H as <-. eauto.
Qed.

Lemma get_description_inv (D v : pyval) (interface_name : string) :
  get_description D interface_name = Ok v ->
  exists d,
    D = VDict d
    /\ (lookup interface_name d = None -> v = VStr "")
    /\ (forall e, lookup interface_name d = Some (VDict e) ->
                  v = get_or e "description" (VStr "")).
Proof.
  unfold get_description, try_default, bind, py_get.
  destruct D; try discriminate. intros H.
  exists d. split; [reflexivity|].
  destruct (lookup interface_name d) as [x|]; simpl in *.
  - split; [discriminate|]. intros e Q. injection Q as ->.
    injection H as <-. reflexivity.
  - split; [intros _; now injection H as <- | discriminate].
Qed.

Lemma listed_item connection threshold now r device_info D items R E info :
  get_port_utilization py connection threshold now = Ok r ->
  fetch connection = Ok (device_info, D, items, R, E) ->
  In info (interfaces r) ->
  exists status,
    In (name info, status) items
    /\ prefix "Ethernet" (name info) = true
    /\ interface_item py D R E threshold (name info) status = Ok info.
Proof.
  intros G F I.
  destruct (report_of_fetch _ _ _ _ _ G)
    as (? & ? & ? & ? & ? & F' & _ & _ & L & _).
  rewrite F in F'. injection F' as <- <- <- <- <-.
  rewrite L in I. apply (Permutation_in _ (sort_by_rank_perm _)) in I.
  apply appended_inv in I. destruct I as (n & s & I & P & X).
  pose proof (item_name _ _ _ _ _ _ _ _ X) as N. subst n. eauto.
Qed.

(** X2.  Every item of a report comes from an entry of the status table
    whose key starts with "Ethernet" and whose value is a mapping.  The
    item shows the [linkStatus] of that entry, or "unknown" when it has
    none; its bandwidth is 0 when the entry has no [bandwidth]; and its
    description is the one the description table holds for the
    interface, the empty string when the table has no entry for it or the
    entry has no [description]. *)
Theorem item_shows_its_table_entry
    connection threshold now r device_info D items R E info :
  get_port_utilization py connection threshold now = Ok r ->
  fetch connection = Ok (device_info, D, items, R, E) ->
  In info (interfaces r) ->
  prefix "Ethernet" (name info) = true
  /\ (exists entry,
         In (name info, VDict entry) items
         /\ status info = get_or entry "linkStatus" (VStr "unknown")
         /\ (lookup "bandwidth" entry = None ->
             bandwidth_mbps info = PInt 0))
  /\ (exists d,
         D = VDict d
         /\ (lookup (name info) d = None -> description info = VStr "")
         /\ (forall e, lookup (name info) d = Some (VDict e) ->
                       description info = get_or e "description" (VStr ""))).
Proof.
  intros G F I.
  destruct (listed_item _ _ _ _ _ _ _ _ _ _ G F I) as (s & Is & P & X).
  apply interface_item_fields in X. destruct X as (_ & Hd & Hs & Hb).
  split; [exact P|]. split.
  - apply get_oper_status_inv in Hs. destruct Hs as (entry & -> & Hs).
    exists entry. split; [exact Is|]. split; [exact Hs|].
    intros B. unfold get_bandwidth, try_default, bind, py_contains in Hb.
    rewrite B in Hb. now injection Hb as <-.
  - apply get_description_inv in Hd. exact Hd.
Qed.

Lemma names_of_appended D R E threshold (items : list (string * pyval)) :
  forall n,
    In n (map name (flat_map (appended py D R E threshold) items)) ->
    In n (map fst items).
Proof.
  intros n H. apply in_map_iff in H. destruct H as (info & <- & I).
  apply appended_inv in I. destruct I as (n & s & I & _ & X).
  apply item_name in X. subst n.
  apply in_map_iff. now exists (name info, s).
Qed.

Lemma appended_names_nodup D R E threshold (items : list (string * pyval)) :
  NoDup (map fst items) ->
  NoDup (map name (flat_map (appended py D R E threshold) items)).
Proof.
  induction items as [|[n s] items IH]; simpl; intros H; [constructor|].
  apply NoDup_cons_iff in H. destruct H as [Hn H].
  rewrite map_app. unfold appended at 1; simpl.
  destruct (prefix "Ethernet" n); simpl; auto.
  destruct (interface_item py D R E threshold n s) as [info|] eqn:X;
    simpl; auto.
  apply item_name in X. subst n.
  constructor; auto.
  intros I. apply Hn. eapply names_of_appended, I.
Qed.

(** X3.  A report lists an interface at most once: when the keys of the
    status table are distinct, so are the names of the items. *)
Theorem interface_names_distinct
    connection threshold now r device_info D items R E :
  get_port_utilization py connection threshold now = Ok r ->
  fetch connection = Ok (device_info, D, items, R, E) ->
  NoDup (map fst items) ->
  NoDup (map name (interfaces r)).
Proof.
  intros G F N.
  destruct (report_of_fetch _ _ _ _ _ G)
    as (? & ? & ? & ? & ? & F' & _ & _ & L & _).
  rewrite F in F'. injection F' as <- <- <- <- <-.
  eapply Permutation_NoDup.
  - apply Permutation_map. symmetry. rewrite L. apply sort_by_rank_perm.
  - now apply appended_names_nodup.
Qed.
End Items.

Lemma item_shows_its_table_entry_witness :
  exists r device_info D items R E info,
    get_port_utilization Examples.plain (mixed_ports "10.1.1.1") 70
      "2025-05-07T10:15:30" = Ok r
    /\ fetch (mixed_ports "10.1.1.1") = Ok (device_info, D, items, R, E)
    /\ In info (interfaces r)
    /\ name info = "Ethernet1"
    /\ status info = VStr "up"
    /\ prefix "Ethernet" (name info) = true
    /\ (exists entry,
           In (name info, VDict entry) items
           /\ status info = get_or entry "linkStatus" (VStr "unknown")
           /\ (lookup "bandwidth" entry = None ->
               bandwidth_mbps info = PInt 0))
    /\ (exists d,
           D = VDict d
           /\ (lookup (name info) d = None -> description info = VStr "")
           /\ (forall e, lookup (name info) d = Some (VDict e) ->
                         description info
                         = get_or e "description" (VStr ""))).
Proof.
  do 7 eexists.
  split; [vm_compute; reflexivity|].
  split; [vm_compute; reflexivity|].
  split; [right; left; reflexivity|].
  split; [reflexivity|]. split; [reflexivity|].
  eapply (item_shows_its_table_entry Examples.plain (mixed_ports "10.1.1.1")
            70 "2025-05-07T10:15:30");
    [vm_compute; reflexivity | vm_compute; reflexivity
     | right; left; reflexivity].
Defined.

Lemma interface_names_distinct_witness :
  exists r device_info D items R E,
    get_port_utilization Examples.plain (mixed_ports "10.1.1.1") 70
      "2025-05-07T10:15:30" = Ok r
    /\ fetch (mixed_ports "10.1.1.1") = Ok (device_info, D, items, R, E)
    /\ map fst items = ["Ethernet1"; "Port-Channel1"; "Ethernet2"]
    /\ map name (interfaces r) = ["Ethernet2"; "Ethernet1"]
    /\ NoDup (map name (interfaces r)).
Proof.
  do 6 eexists.
  split; [vm_compute; reflexivity|].
  split; [vm_compute; reflexivity|].
  split; [reflexivity|]. split; [reflexivity|].
  eapply (interface_names_distinct Examples.plain (mixed_ports "10.1.1.1")
            70 "2025-05-07T10:15:30");
    [vm_compute; reflexivity | vm_compute; reflexivity |].
  repeat constructor; simpl; intuition discriminate.
Defined.

Lemma gt_threshold_mono (u : pynum) (t t' : Z) :
  t <= t' -> py_gt u (PInt t') = true -> py_gt u (PInt t) = true.
Proof.
  unfold py_gt; simpl. intros L.
  destruct (value u) as [| |q|]; simpl; auto.
  intros H. apply negb_true_iff in H. apply negb_true_iff.
  destruct (Qle_bool q (t # 1)) eqn:X; auto.
  apply Qle_bool_iff in X.
  assert (Y : Qle_bool q (t' # 1) = true).
  { apply Qle_bool_iff. eapply Qle_trans; [exact X|].
    unfold Qle; simpl. lia. }
  congruence.
Qed.

Lemma fewer_flags_rank (a b : InterfaceInfo) :
  fewer_flags a b -> rank b = rank a.
Proof.
  intros [U _]. unfold rank.
  change (input_utilization b) with (input_utilization (unflagged b)).
  change (output_utilization b) with (output_utilization (unflagged b)).
  now rewrite U.
Qed.

Lemma insert_by_rank_fewer_flags (x y : InterfaceInfo)
    (l l' : list InterfaceInfo) :
  fewer_flags x y -> Forall2 fewer_flags l l' ->
  Forall2 fewer_flags (insert_by_rank x l) (insert_by_rank y l').
Proof.
  intros Hxy H. induction H as [|a b l l' Hab H IH]; simpl.
  - constructor; [exact Hxy | constructor].
  - rewrite (fewer_flags_rank _ _ Hxy), (fewer_flags_rank _ _ Hab).
    destruct (py_lt (rank x) (rank a)).
    + constructor; [exact Hab | exact IH].
    + constructor; [exact Hxy|]. constructor; [exact Hab | exact H].
Qed.

Lemma sort_by_rank_fewer_flags (l l' : list InterfaceInfo) :
  Forall2 fewer_flags l l' ->
  Forall2 fewer_flags (sort_by_rank l) (sort_by_rank l').
Proof.
  induction 1; simpl; [constructor|].
  now apply insert_by_rank_fewer_flags.
Qed.

Section Threshold.
Variable py : builtins.
Variables D R E : pyval.
Variables t t' : Z.
Hypothesis Ht : t <= t'.

Lemma calmer_step (st st' : LoopState) (item : string * pyval) :
  calmer st st' ->
  calmer (process_interface py D R E t st item)
         (process_interface py D R E t' st' item).
Proof.
  destruct item as [interface_name status].
  destruct st as [l h e a], st' as [l' h' e' a'].
  unfold calmer, process_interface; simpl.
  intros (Hl & Ha & He & Hh).
  destruct (prefix "Ethernet" interface_name); simpl; [|auto].
  destruct (get_description D interface_name); simpl; [|auto].
  destruct (get_bandwidth py status) as [bw|]; simpl; [|auto].
  destruct (get_oper_status status) as [oper|]; simpl; [|auto].
  assert (Ha' : active_interfaces_count
                  (if eq_str oper "up"
                   then count_active (mk_loop_state l' h' e' a')
                   else mk_loop_state l' h' e' a')
                = active_interfaces_count
                    (if eq_str oper "up"
                     then count_active (mk_loop_state l h e a)
                     else mk_loop_state l h e a)).
  { destruct (eq_str oper "up"); simpl; lia. }
  destruct (eq_str oper "up"); simpl in *;
  (destruct (get_rate py R interface_name "inRate") as [ri|]; simpl;
     [|auto];
   destruct (get_rate py R interface_name "outRate") as [ro|]; simpl;
     [|auto];
   destruct (utilization ri bw) as [ui|]; simpl; [|auto];
   destruct (utilization ro bw) as [uo|]; simpl; [|auto];
   pose proof (gt_threshold_mono ui _ _ Ht) as Mi;
   pose proof (gt_threshold_mono uo _ _ Ht) as Mo;
   destruct (py_gt ui (PInt t')) eqn:Gi';
     [rewrite (Mi eq_refl)|];
   destruct (py_gt uo (PInt t')) eqn:Go';
     try rewrite (Mo eq_refl); rewrite ?orb_true_r; simpl;
   try destruct (py_gt ui (PInt t)); try destruct (py_gt uo (PInt t));
   simpl;
   (destruct (get_errors py E interface_name "inErrors") as [ei|]; simpl;
      [|split; [auto | lia]];
    destruct (get_errors py E interface_name "outErrors") as [eo|]; simpl;
      [|split; [auto | lia]];
    destruct ((ei >? 0) || (eo >? 0)); simpl;
    (split; [apply Forall2_app; [exact Hl|];
             repeat constructor; simpl; auto; discriminate
            | lia]))).
Qed.

Lemma calmer_loop (items : list (string * pyval)) :
  forall st st',
    calmer st st' ->
    calmer (fold_left (process_interface py D R E t) items st)
           (fold_left (process_interface py D R E t') items st').
Proof.
  induction items as [|item items IH]; simpl; intros st st' H; auto.
  apply IH, calmer_step, H.
Qed.
End Threshold.

Lemma calmer_initial : calmer initial_state initial_state.
Proof. unfold calmer; simpl. repeat split; try constructor; lia. Qed.

Lemma fewer_flags_unflagged (l l' : list InterfaceInfo) :
  Forall2 fewer_flags l l' -> map unflagged l' = map unflagged l.
Proof.
  induction 1 as [|a b l l' [U _] _ IH]; simpl; [reflexivity|].
  now rewrite U, IH.
Qed.

Lemma fewer_flags_implied (l l' : list InterfaceInfo) :
  Forall2 fewer_flags l l' ->
  Forall2 (fun a b => high_utilization b = true -> high_utilization a = true)
    l l'.
Proof. induction 1 as [|a b l l' [_ F] _ IH]; constructor; auto. Qed.

(** X4.  The threshold decides the flags and nothing else.  When a run
    with threshold [t] returns a report, a run with a higher threshold [t']
    on the same answers returns one too, with the same device block and
    time stamp, the same items in the same order up to their flags, and the
    same counters of listed, active and erroneous interfaces; an item that
    is flagged under [t'] is flagged under [t], and the counter of highly
    utilized interfaces is not larger under [t']. *)
Theorem higher_threshold_fewer_flags
    (py : builtins) (connection : Connection) (t t' : Z) (now : string)
    (r : Report) :
  get_port_utilization py connection t now = Ok r ->
  t <= t' ->
  exists r',
    get_port_utilization py connection t' now = Ok r'
    /\ device r' = device r
    /\ timestamp r' = timestamp r
    /\ map unflagged (interfaces r') = map unflagged (interfaces r)
    /\ Forall2 (fun a b =>
                  high_utilization b = true -> high_utilization a = true)
         (interfaces r) (interfaces r')
    /\ total_interfaces (summary r') = total_interfaces (summary r)
    /\ active_interfaces (summary r') = active_interfaces (summary r)
    /\ error_interfaces (summary r') = error_interfaces (summary r)
    /\ high_utilization_interfaces (summary r')
       <= high_utilization_interfaces (summary r).
Proof.
  intros G Ht.
  destruct (report_of_state _ _ _ _ _ G)
    as (dv & D & items & R & E & F & Dv & Ts & L & T & A & H & Er).
  destruct (fetch_succeeds py _ t' now _ _ _ _ _ F) as [r' G'].
  exists r'. split; [exact G'|].
  destruct (report_of_state _ _ _ _ _ G')
    as (? & ? & ? & ? & ? & F' & Dv' & Ts' & L' & T' & A' & H' & Er').
  rewrite F in F'. injection F' as <- <- <- <- <-.
  pose proof (calmer_loop py D R E t t' Ht items _ _ calmer_initial) as C.
  fold (process_interfaces py D R E t items) in C.
  fold (process_interfaces py D R E t' items) in C.
  destruct C as (Cl & Ca & Ce & Ch).
  apply sort_by_rank_fewer_flags in Cl. rewrite <- L, <- L' in Cl.
  split; [congruence|]. split; [congruence|].
  split; [now apply fewer_flags_unflagged|].
  split; [now apply fewer_flags_implied|].
  split.
  { rewrite T, T'. f_equal.
    apply fewer_flags_unflagged in Cl.
    apply (f_equal (@List.length _)) in Cl.
    now rewrite !length_map in Cl. }
  split; [congruence|]. split; [congruence|]. lia.
Qed.

Lemma higher_threshold_fewer_flags_witness :
  exists r r',
    get_port_utilization Examples.plain (scenario "10.1.1.1") 60
      "2025-05-07T10:15:30" = Ok r
    /\ 60 <= 70
    /\ get_port_utilization Examples.plain (scenario "10.1.1.1") 70
         "2025-05-07T10:15:30" = Ok r'
    /\ map high_utilization (interfaces r) = [true]
    /\ map high_utilization (interfaces r') = [false]
    /\ map unflagged (interfaces r') = map unflagged (interfaces r)
    /\ high_utilization_interfaces (summary r')
       <= high_utilization_interfaces (summary r).
Proof.
  destruct (higher_threshold_fewer_flags Examples.plain
              (scenario "10.1.1.1") 60 70 "2025-05-07T10:15:30" _
              eq_refl)
    as (r' & G' & _ & _ & U & _ & _ & _ & _ & H); [lia|].
  eexists. exists r'.
  split; [reflexivity|]. split; [lia|]. split; [exact G'|].
  split; [reflexivity|].
  split; [|split; [exact U | exact H]].
  vm_compute in G'. injection G' as <-. reflexivity.
Defined.

Lemma lt_not_eq (a b k : pynum) :
  py_lt a b = true -> py_eq a k = true -> py_eq b k = false.
Proof.
  unfold py_lt, py_eq.
  destruct (value a) as [| |p|], (value b) as [| |q|], (value k) as [| |c|];
    simpl; try discriminate; try reflexivity.
  intros L E. apply negb_true_iff in L. apply Qeq_bool_iff in E.
  destruct (Qeq_bool q c) eqn:X; [|reflexivity].
  apply Qeq_bool_iff in X.
  assert (Y : Qle_bool q p = true).
  { apply Qle_bool_iff. rewrite X, E. apply Qle_refl. }
  congruence.
Qed.

Lemma of_rank_insert (k : pynum) (x : InterfaceInfo)
    (l : list InterfaceInfo) :
  of_rank k (insert_by_rank x l) = of_rank k (x :: l).
Proof.
  induction l as [|y l IH]; [reflexivity|].
  simpl insert_by_rank.
  destruct (py_lt (rank x) (rank y)) eqn:L; [|reflexivity].
  unfold of_rank in *. simpl in *. rewrite IH.
  destruct (py_eq (rank x) k) eqn:Ex; [|reflexivity].
  now rewrite (lt_not_eq _ _ _ L Ex).
Qed.

Lemma of_rank_sort (k : pynum) (l : list InterfaceInfo) :
  of_rank k (sort_by_rank l) = of_rank k l.
Proof.
  induction l as [|x l IH]; [reflexivity|].
  simpl sort_by_rank. rewrite of_rank_insert.
  unfold of_rank in *. simpl. now rewrite IH.
Qed.

(** X5.  The sort keeps ties in the order of the status table: in a
    report in which no item has a NaN for its rank, the items of any one
    rank follow each other as the loop collected them. *)
Theorem equal_ranks_keep_table_order
    (py : builtins) connection threshold now r device_info D items R E
    (k : pynum) :
  get_port_utilization py connection threshold now = Ok r ->
  fetch connection = Ok (device_info, D, items, R, E) ->
  (forall info, In info (interfaces r) -> value (rank info) <> XNaN) ->
  of_rank k (interfaces r)
  = of_rank k (flat_map (appended py D R E threshold) items).
Proof.
  intros G F _.
  destruct (report_of_fetch _ _ _ _ _ G)
    as (? & ? & ? & ? & ? & F' & _ & _ & L & _).
  rewrite F in F'. injection F' as <- <- <- <- <-.
  rewrite L. apply of_rank_sort.
Qed.

Lemma equal_ranks_keep_table_order_witness :
  exists r device_info D items R E,
    get_port_utilization Examples.plain (tied_ports "10.1.1.1") 70
      "2025-05-07T10:15:30" = Ok r
    /\ fetch (tied_ports "10.1.1.1") = Ok (device_info, D, items, R, E)
    /\ map name (interfaces r) = ["Ethernet2"; "Ethernet1"; "Ethernet3"]
    /\ map name (of_rank (PInt 10) (interfaces r))
       = ["Ethernet1"; "Ethernet3"]
    /\ of_rank (PInt 10) (interfaces r)
       = of_rank (PInt 10)
           (flat_map (appended Examples.plain D R E 70) items).
Proof.
  do 6 eexists.
  split; [vm_compute; reflexivity|].
  split; [vm_compute; reflexivity|].
  split; [reflexivity|]. split; [reflexivity|].
  eapply (equal_ranks_keep_table_order Examples.plain (tied_ports "10.1.1.1")
            70 "2025-05-07T10:15:30");
    [vm_compute; reflexivity | vm_compute; reflexivity |].
  intros info [<-|[<-|[<-|[]]]]; discriminate.
Defined.

Section Commands.
Variable py : builtins.

(** X6.  The answer to [show interfaces counters] is fetched and not
    used: two switches that differ in this answer only give the same
    report, when both runs return one. *)
Theorem counters_answer_is_not_used
    (connection connection' : Connection) (threshold : Z) (now : string)
    (r r' : Report) :
  (forall cmd, cmd <> "show interfaces counters" ->
               execute connection' cmd = execute connection cmd) ->
  transport_host connection' = transport_host connection ->
  get_port_utilization py connection threshold now = Ok r ->
  get_port_utilization py connection' threshold now = Ok r' ->
  r' = r.
Proof.
  intros H Ht.
  unfold get_port_utilization, get_port_utilization_body, bind.
  rewrite Ht.
  rewrite (H "show version"), (H "show interfaces description"),
    (H "show interfaces status"), (H "show interfaces counters rates"),
    (H "show interfaces counters errors") by discriminate.
  repeat match goal with
  | |- context [match ?x with Ok _ => _ | Raise _ => _ end] =>
      lazymatch x with
      | context [match _ with Ok _ => _ | Raise _ => _ end] => fail
      | _ => destruct x; try discriminate
      end
  end.
  intros E E'. injection E as <-. injection E' as <-. reflexivity.
Qed.


Lemma side_table_no_table (key : string) (response : pyval) :
  no_table key response -> side_table response key = Ok (VDict []).
Proof.
  intros (d & -> & [H|[H|(first & rest & H & K)]]);
    unfold side_table, try_default, bind; simpl; rewrite H; simpl;
    try reflexivity.
  now rewrite K.
Qed.

(** X8.  A status answer that holds no table is not an error: when the
    run returns a report, the report lists no interface and all four
    counters are 0. *)
Theorem missing_status_table_gives_empty_report
    (connection : Connection) (threshold : Z) (now : string)
    (response : pyval) (r : Report) :
  execute connection "show interfaces status" = Ok response ->
  no_table "interfaceStatuses" response ->
  get_port_utilization py connection threshold now = Ok r ->
  interfaces r = [] /\ summary r = empty_summary.
Proof.
  intros X N.
  unfold get_port_utilization, get_port_utilization_body, bind.
  rewrite X, (side_table_no_table _ _ N).
  repeat match goal with
  | |- context [py_items (VDict ?d)] =>
      change (py_items (VDict d)) with (Ok d); cbv beta iota
  | |- context [match ?x with Ok _ => _ | Raise _ => _ end] =>
      lazymatch x with
      | context [match _ with Ok _ => _ | Raise _ => _ end] => fail
      | _ => destruct x; try discriminate; cbv beta iota
      end
  end.
  intros E. injection E as <-. split; reflexivity.
Qed.
End Commands.

Lemma counters_answer_is_not_used_witness :
  let first := scenario "10.1.1.1" in
  let second :=
    with_answer "show interfaces counters"
      (Ok (Examples.response "interfaces"
             (VDict [("Ethernet1", VDict [("inOctets", VInt 123456)])])))
      first in
  exists r r',
    get_port_utilization Examples.plain first 70 "2025-05-07T10:15:30" = Ok r
    /\ get_port_utilization Examples.plain second 70 "2025-05-07T10:15:30"
       = Ok r'
    /\ execute second "show interfaces counters"
       <> execute first "show interfaces counters"
    /\ r' = r.
Proof.
  intros first second. do 2 eexists.
  split; [vm_compute; reflexivity|].
  split; [vm_compute; reflexivity|].
  split; [discriminate|].
  apply (counters_answer_is_not_used Examples.plain first second 70
           "2025-05-07T10:15:30");
    try (vm_compute; reflexivity).
  intros cmd N. unfold second, with_answer; simpl.
  destruct (String.eqb cmd "show interfaces counters") eqn:Q;
    [apply String.eqb_eq in Q; contradiction | reflexivity].
Defined.


Lemma missing_status_table_gives_empty_report_witness :
  let connection :=
    with_answer "show interfaces status" (Ok (VDict [("result", VList [])]))
      (scenario "10.1.1.1") in
  exists r,
    execute connection "show interfaces status"
    = Ok (VDict [("result", VList [])])
    /\ no_table "interfaceStatuses" (VDict [("result", VList [])])
    /\ get_port_utilization Examples.plain connection 70
         "2025-05-07T10:15:30" = Ok r
    /\ interfaces r = [] /\ summary r = empty_summary.
Proof.
  intros connection.
  assert (N : no_table "interfaceStatuses" (VDict [("result", VList [])])).
  { eexists. split; [reflexivity|]. right; left; reflexivity. }
  eexists. split; [reflexivity|]. split; [exact N|].
  split; [vm_compute; reflexivity|].
  apply (missing_status_table_gives_empty_report Examples.plain connection
           70 "2025-05-07T10:15:30" (VDict [("result", VList [])]));
    [reflexivity | exact N | vm_compute; reflexivity].
Defined.

Lemma identity_field_inv (version_data v : pyval) (key : string) :
  identity_field version_data key = Ok v ->
  exists d, version_data = VDict d /\ v = get_or d key (VStr "Unknown").
Proof.
  unfold identity_field, try_default, py_get.
  destruct version_data; try discriminate.
  intros H; injection H as <-. eauto.
Qed.

Lemma device_identity_inv (version_data : pyval) (host : string)
    (info : DeviceInfo) :
  device_identity version_data host = Ok info ->
  exists d,
    version_data = VDict d
    /\ hostname info
       = (let h := get_or d "hostname" (VStr "Unknown") in
          if eq_str h "Unknown" then VStr host else h)
    /\ platform info = VStr "Arista EOS"
    /\ model info = get_or d "modelName" (VStr "Unknown")
    /\ serial_number info = get_or d "serialNumber" (VStr "Unknown")
    /\ version info = get_or d "version" (VStr "Unknown").
Proof.
  unfold device_identity, bind.
  destruct (identity_field version_data "hostname") as [h|] eqn:H;
    [|discriminate].
  destruct (identity_field version_data "modelName") as [m|] eqn:M;
    [|discriminate].
  destruct (identity_field version_data "serialNumber") as [s|] eqn:S;
    [|discriminate].
  destruct (identity_field version_data "version") as [v|] eqn:V;
    [|discriminate].
  intros E. injection E as <-.
  apply identity_field_inv in H, M, S, V.
  destruct H as (d & -> & ->), M as (? & Q & ->). injection Q as <-.
  destruct S as (? & Q & ->). injection Q as <-.
  destruct V as (? & Q & ->). injection Q as <-.
  exists d. cbn. auto 10.
Qed.

(** X9.  A report is returned only when the first result of [show
    version] is a mapping, and its device block is read from that
    mapping: model, serial number and version are the values of
    [modelName], [serialNumber] and [version], "Unknown" for a missing
    key; the host name is the value of [hostname], and the host of the
    connection when that value is missing or is the string "Unknown"; the
    platform is "Arista EOS". *)
Theorem device_block_of_version_answer
    (py : builtins) (connection : Connection) (threshold : Z) (now : string)
    (r : Report) :
  get_port_utilization py connection threshold now = Ok r ->
  exists answer results d,
    execute connection "show version" = Ok answer
    /\ py_getitem answer "result" = Ok results
    /\ py_getitem0 results = Ok (VDict d)
    /\ hostname (device r)
       = (let h := get_or d "hostname" (VStr "Unknown") in
          if eq_str h "Unknown" then VStr (transport_host connection) else h)
    /\ platform (device r) = VStr "Arista EOS"
    /\ model (device r) = get_or d "modelName" (VStr "Unknown")
    /\ serial_number (device r) = get_or d "serialNumber" (VStr "Unknown")
    /\ version (device r) = get_or d "version" (VStr "Unknown").
Proof.
  intros G.
  destruct (report_of_fetch _ _ _ _ _ G)
    as (device_info & ? & ? & ? & ? & F & Dv & _).
  revert F. unfold fetch, bind.
  destruct (execute connection "show version") as [answer|] eqn:A;
    [|discriminate].
  destruct (py_getitem answer "result") as [results|] eqn:Rs;
    [|discriminate].
  destruct (py_getitem0 results) as [version_data|] eqn:V; [|discriminate].
  destruct (device_identity version_data (transport_host connection))
    as [info|] eqn:I; [|discriminate].
  intros F.
  assert (info = device_info).
  { repeat match type of F with
    | match ?x with Ok _ => _ | Raise _ => _ end = _ =>
        destruct x; [|discriminate F]
    end.
    now injection F. }
  subst info. apply device_identity_inv in I.
  destruct I as (d & -> & I). rewrite Dv.
  exists answer, results, d.
  split; [reflexivity|]. split; [exact Rs|]. split; [exact V|].
  exact I.
Qed.

Lemma device_block_of_version_answer_witness :
  exists r,
    get_port_utilization Examples.plain (named_switch "10.1.1.1") 70
      "2025-05-07T10:15:30" = Ok r
    /\ hostname (device r) = VStr "leaf1"
    /\ serial_number (device r) = VStr "Unknown"
    /\ exists answer results d,
         execute (named_switch "10.1.1.1") "show version" = Ok answer
         /\ py_getitem answer "result" = Ok results
         /\ py_getitem0 results = Ok (VDict d)
         /\ hostname (device r)
            = (let h := get_or d "hostname" (VStr "Unknown") in
               if eq_str h "Unknown"
               then VStr (transport_host (named_switch "10.1.1.1")) else h)
         /\ platform (device r) = VStr "Arista EOS"
         /\ model (device r) = get_or d "modelName" (VStr "Unknown")
         /\ serial_number (device r)
            = get_or d "serialNumber" (VStr "Unknown")
         /\ version (device r) = get_or d "version" (VStr "Unknown").
Proof.
  eexists. split; [vm_compute; reflexivity|].
  split; [reflexivity|]. split; [reflexivity|].
  apply (device_block_of_version_answer Examples.plain
           (named_switch "10.1.1.1") 70 "2025-05-07T10:15:30").
  vm_compute; reflexivity.
Defined.

End AristaReportFacts.

(* ================================================================== *)
(** * The BGP report: exit codes, sections, head *)
(* ================================================================== *)

Module CiscoReportFacts.
Import Cisco CiscoSpec CiscoFacts.

Section Run.
Variable py : builtins.
Variable re : regex.

Lemma connect_failure_related (message : string) :
  bgp_related (mk_exn RuntimeError ("Failed to connect to device: " ++ message))
  = str_in "BGP" message || str_in "No existing session" message.
Proof. reflexivity. Qed.

Lemma authentication_failure_related (message : string) :
  bgp_related (mk_exn RuntimeError ("Authentication failed: " ++ message))
  = str_in "BGP" message || str_in "No existing session" message.
Proof. reflexivity. Qed.

Lemma exit_code_of_outcome (ssh : Session) (host : string)
    (neighbor : option string) :
  exit_code (main py re ssh host neighbor)
  = match get_bgp_neighbors_body py re ssh host neighbor with
    | Returned _ => 0
    | Raised e _ _ => if fatal e then 1 else 0
    end.
Proof.
  unfold main, get_bgp_neighbors, handle, fatal, is_instance.
  destruct (get_bgp_neighbors_body py re ssh host neighbor) as [r|e p h];
    [reflexivity|].
  cbn [existsb]. rewrite !orb_false_r.
  destruct (exn_kind_eqb (exn_class e) NoValidConnectionsError);
    [|destruct (exn_kind_eqb (exn_class e) AuthenticationException)];
    cbn [orb andb].
  - unfold report_or_fail. rewrite connect_failure_related.
    destruct (str_in "BGP" (exn_str e)),
      (str_in "No existing session" (exn_str e)); reflexivity.
  - unfold report_or_fail. rewrite authentication_failure_related.
    destruct (str_in "BGP" (exn_str e)),
      (str_in "No existing session" (exn_str e)); reflexivity.
  - destruct (no_bgp_session (exn_str e)); [reflexivity|].
    unfold report_or_fail. now rewrite fallback_is_bgp_related.
Qed.

(** X10.  The exit code of the BGP check is 0 or 1, and it is 1 exactly
    when the session could not be established: the [try] block ended with
    one of the two paramiko exceptions, [NoValidConnectionsError] or
    [AuthenticationException], and the message of that exception contains
    neither "BGP" nor "No existing session".  Every other failure ends
    with exit code 0. *)
Theorem exit_code_1_iff_session_failure (ssh : Session) (host : string)
    (neighbor : option string) :
  let code := exit_code (main py re ssh host neighbor) in
  (code = 0 \/ code = 1)
  /\ (code = 1 <->
      exists e platform hostname,
        get_bgp_neighbors_body py re ssh host neighbor
        = Raised e platform hostname
        /\ is_instance [NoValidConnectionsError; AuthenticationException] e
           = true
        /\ str_in "BGP" (exn_str e) = false
        /\ str_in "No existing session" (exn_str e) = false).
Proof.
  cbv zeta. rewrite exit_code_of_outcome.
  destruct (get_bgp_neighbors_body py re ssh host neighbor) as [r|e p h].
  - split; [now left|]. split; [discriminate|].
    intros (? & ? & ? & X & _); discriminate.
  - unfold fatal.
    destruct (is_instance [NoValidConnectionsError; AuthenticationException]
                e) eqn:C,
      (str_in "BGP" (exn_str e)) eqn:M1,
      (str_in "No existing session" (exn_str e)) eqn:M2; cbn [andb negb];
      (split; [auto|]); split; try discriminate;
      try (intros (? & ? & ? & X & C' & M1' & M2');
           injection X as <- <- <-; congruence).
    intros _. exists e, p, h. repeat split; assumption.
Qed.

Lemma parse_sections_parsed (sections : list string) :
  forall acc l,
    parse_sections py re sections acc = Ok l ->
    exists l', l = (acc ++ l')%list /\ parsed py re sections l'.
Proof.
  induction sections as [|s sections IH]; intros acc l H;
    cbn [parse_sections] in H.
  - injection H as <-. exists []. split; [now rewrite app_nil_r|constructor].
  - destruct (search2 re neighbor_regex ("BGP neighbor is" ++ s))
      as [[ip remote]|] eqn:M.
    + revert H. unfold bind.
      destruct (int_group py (search1 re prefixes_received_regex _))
        as [received|] eqn:Pr; [|discriminate].
      destruct (int_group py (search1 re prefixes_sent_regex _))
        as [sent|] eqn:Ps; [|discriminate].
      intros H. apply IH in H. destruct H as (l' & -> & P).
      eexists. split; [now rewrite <- app_assoc|].
      apply parsed_read; [|exact P].
      unfold read_from; simpl. auto 10.
    + apply IH in H. destruct H as (l' & -> & P).
      exists l'. split; [reflexivity|].
      apply parsed_skip; [|exact P]. unfold is_neighbor. now rewrite M.
Qed.

Lemma parsed_length (sections : list string) (l : list Neighbor) :
  parsed py re sections l ->
  List.length l = List.length (filter (is_neighbor re) sections).
Proof.
  induction 1 as [|s sections l N _ IH|s n sections l R _ IH]; simpl.
  - reflexivity.
  - now rewrite N.
  - destruct R as (M & _). unfold is_neighbor at 1. rewrite M.
    simpl. now rewrite IH.
Qed.

Lemma returned_neighbors ssh host neighbor r output :
  get_bgp_neighbors_body py re ssh host neighbor = Returned r ->
  run ssh (neighbors_command neighbor) = Ok output ->
  parse_sections py re (tl (split re "BGP neighbor is" output)) []
  = Ok (neighbors r).
Proof.
  unfold get_bgp_neighbors_body. intros B X. rewrite X in B.
  destruct (connect ssh); [|discriminate].
  destruct (run ssh "show version | include Software"); [|discriminate].
  destruct (run ssh "show running-config | include hostname");
    [|discriminate].
  destruct (run ssh "show ip bgp summary"); [|discriminate].
  destruct (parse_sections _ _ _ _) as [l|]; [|discriminate].
  injection B as <-. reflexivity.
Qed.


(** X12.  Neighbor output without a section (the device printed nothing
    that the separator splits, as when no neighbor is configured or the
    one asked for does not exist) is not an error: when the session opens
    and the four commands are answered, the run prints a report with no
    neighbors, the three counters 0 and no status string, and exits with
    code 0. *)
Theorem output_without_sections_gives_empty_report
    (ssh : Session) (host : string) (neighbor : option string)
    (version_output hostname_output summary_output output : string) :
  connect ssh = Ok tt ->
  run ssh "show version | include Software" = Ok version_output ->
  run ssh "show running-config | include hostname" = Ok hostname_output ->
  run ssh "show ip bgp summary" = Ok summary_output ->
  run ssh (neighbors_command neighbor) = Ok output ->
  tl (split re "BGP neighbor is" output) = [] ->
  exists r,
    main py re ssh host neighbor = mk_process [ReportDoc r] [] 0
    /\ neighbors r = []
    /\ summary r = empty_summary
    /\ status r = None.
Proof.
  intros C V H S N T.
  unfold main, get_bgp_neighbors, get_bgp_neighbors_body.
  rewrite C, V, H, S, N, T. simpl parse_sections. cbv iota beta.
  eexists. split; [reflexivity|]. repeat split.
Qed.
End Run.


Lemma output_without_sections_gives_empty_report_witness :
  let ssh :=
    session "Cisco IOS XE Software" "hostname edge1" ""
      "% No such neighbor" in
  tl (split Examples.no_match "BGP neighbor is" "% No such neighbor") = []
  /\ exists r,
       main Examples.plain Examples.no_match ssh "10.1.1.1"
         (Some "192.0.2.7")
       = mk_process [ReportDoc r] [] 0
       /\ neighbors r = []
       /\ summary r = empty_summary
       /\ status r = None.
Proof.
  intros ssh. split; [reflexivity|].
  apply (output_without_sections_gives_empty_report Examples.plain
           Examples.no_match ssh "10.1.1.1" (Some "192.0.2.7")
           "Cisco IOS XE Software" "hostname edge1" "" "% No such neighbor");
    reflexivity.
Defined.

(** A string in which [old] does not occur is left as it is. *)
Lemma replace_fuel_absent (old new : string) (fuel : nat) :
  forall s, str_in old s = false -> replace_fuel fuel old new s = s.
Proof.
  induction fuel as [|fuel IH]; intros s H; [reflexivity|].
  destruct s as [|c s]; [reflexivity|].
  cbn [replace_fuel].
  rewrite str_in_step in H. apply orb_false_iff in H. destruct H as [P H].
  rewrite P. now rewrite IH.
Qed.

Lemma prefix_self_app (a b : string) : prefix a (a ++ b) = true.
Proof.
  induction a as [|c a IH]; simpl; [now destruct b|].
  destruct (ascii_dec c c); [exact IH | contradiction].
Qed.

Lemma drop_app (a b : string) : drop (String.length a) (a ++ b) = b.
Proof. induction a as [|c a IH]; simpl; auto. Qed.

(** [(old ++ s).replace(old, "")] is [s] when [old] does not occur in
    [s]. *)
Lemma replace_leading (c : ascii) (old s : string) :
  str_in (String c old) s = false ->
  replace (String c old) "" (String c old ++ s) = s.
Proof.
  intros H. unfold replace.
  change (String.length (String c old ++ s))
    with (S (String.length (old ++ s))).
  cbn [replace_fuel append].
  change (String c (old ++ s)) with (String c old ++ s).
  rewrite prefix_self_app, drop_app.
  now apply replace_fuel_absent.
Qed.

Section Head.
Variable py : builtins.
Variable re : regex.

End Head.


End CiscoReportFacts.

(* ================================================================== *)
(** * The OSPF report: neighbors, areas, the two ends of a run *)
(* ================================================================== *)

Module JuniperReportFacts.
Import Juniper JuniperSpec JuniperFacts.

Lemma option_string_eqb_eq (a b : option string) :
  option_string_eqb a b = true <-> a = b.
Proof.
  destruct a as [x|], b as [y|]; simpl; split; try discriminate; auto.
  - intros H. apply String.eqb_eq in H. now subst.
  - intros H. injection H as ->. apply String.eqb_refl.
Qed.

Lemma set_add_in (a b : option string) (s : list (option string)) :
  In b (set_add a s) <-> b = a \/ In b s.
Proof.
  unfold set_add. destruct (existsb (option_string_eqb a) s) eqn:X.
  - split; auto. intros [->|H]; auto.
    apply existsb_exists in X. destruct X as (c & I & Q).
    apply option_string_eqb_eq in Q. now subst.
  - rewrite in_app_iff. simpl. intuition.
Qed.

Lemma set_add_nodup (a : option string) (s : list (option string)) :
  NoDup s -> NoDup (set_add a s).
Proof.
  intros N. unfold set_add.
  destruct (existsb (option_string_eqb a) s) eqn:X; [exact N|].
  apply NoDup_app; [exact N | repeat constructor; auto |].
  intros b I [Q|[]]. subst b.
  assert (Y : existsb (option_string_eqb a) s = true).
  { apply existsb_exists. exists a. split; [exact I|].
    now apply option_string_eqb_eq. }
  congruence.
Qed.

Lemma mirrors_step (seen : list Element) (st : LoopState) (nbr : Element) :
  mirrors seen st -> mirrors (seen ++ [nbr]) (process_neighbor st nbr).
Proof.
  unfold mirrors, process_neighbor. cbn [neighbors_so_far areas_so_far
    full_state_count]. intros (L & F & N & A).
  split; [now rewrite L, map_app|].
  split.
  { unfold count_full in *. rewrite filter_app, length_app, Nat2Z.inj_add.
    rewrite <- F. cbn [filter]. unfold is_full. cbn [state].
    destruct (option_string_eqb _ _); simpl; lia. }
  split; [now apply set_add_nodup|].
  intros a. rewrite set_add_in, map_app, in_app_iff, A. simpl.
  intuition.
Qed.

Lemma mirrors_loop (rpc : list Element) :
  forall seen st,
    mirrors seen st ->
    mirrors (seen ++ rpc) (fold_left process_neighbor rpc st).
Proof.
  induction rpc as [|nbr rpc IH]; simpl; intros seen st H.
  - now rewrite app_nil_r.
  - replace (seen ++ nbr :: rpc)%list with ((seen ++ [nbr]) ++ rpc)%list
      by now rewrite <- app_assoc.
    apply IH, mirrors_step, H.
Qed.

Lemma mirrors_initial : mirrors [] initial_state.
Proof.
  unfold mirrors; simpl. repeat split; auto; constructor.
Qed.

Lemma report_mirrors dev instance area now r :
  get_ospf_neighbors dev instance area now = Ok r ->
  exists rpc st,
    get_ospf_neighbor_information dev instance (area_argument area) = Ok rpc
    /\ mirrors rpc st
    /\ neighbors r = neighbors_so_far st
    /\ full_state_neighbors (summary r) = full_state_count st
    /\ areas (summary r) = areas_so_far st.
Proof.
  unfold get_ospf_neighbors, get_ospf_neighbors_body, bind.
  destruct (open dev); [|discriminate].
  destruct (fact _ "hostname"); [|discriminate].
  destruct (fact _ "model"); [|discriminate].
  destruct (fact _ "version"); [|discriminate].
  destruct (get_ospf_neighbor_information _ _ _) as [rpc|]; [|discriminate].
  intros E. injection E as <-. simpl.
  exists rpc, (fold_left process_neighbor rpc initial_state).
  split; [reflexivity|].
  split; [apply (mirrors_loop rpc [] _ mirrors_initial) | auto].
Qed.

(** X14.  The OSPF report mirrors the reply of the device: it lists one
    neighbor for each [ospf-neighbor] element, in the order of the reply,
    with the texts of the element's children as fields ([None] for a
    missing child); and the counter of full adjacencies is the number of
    listed neighbors whose state is "Full". *)
Theorem ospf_report_mirrors_reply dev instance area now r rpc :
  get_ospf_neighbors dev instance area now = Ok r ->
  get_ospf_neighbor_information dev instance (area_argument area) = Ok rpc ->
  neighbors r = map neighbor_of rpc
  /\ full_state_neighbors (summary r) = count_full (neighbors r).
Proof.
  intros G X.
  destruct (report_mirrors _ _ _ _ _ G)
    as (rpc' & st & X' & (L & F & _ & _) & N & Fs & _).
  rewrite X in X'. injection X' as <-.
  rewrite N, Fs. auto.
Qed.

(** X15.  The areas of the summary are the areas of the listed
    neighbors, each of them once; a neighbor without an area contributes
    [None]. *)
Theorem areas_of_listed_neighbors dev instance area now r :
  get_ospf_neighbors dev instance area now = Ok r ->
  NoDup (areas (summary r))
  /\ forall a, In a (areas (summary r)) <-> In a (map Juniper.area (neighbors r)).
Proof.
  intros G.
  destruct (report_mirrors _ _ _ _ _ G)
    as (rpc & st & _ & (_ & _ & D & A) & N & _ & As).
  rewrite N, As. auto.
Qed.

Lemma ospf_report_mirrors_reply_witness :
  exists r rpc,
    get_ospf_neighbors three_neighbors "master" None "2025-05-07T10:15:30"
    = Ok r
    /\ get_ospf_neighbor_information three_neighbors "master"
         (area_argument None) = Ok rpc
    /\ map state (neighbors r) = [Some "Full"; Some "Init"; None]
    /\ full_state_neighbors (summary r) = 1
    /\ non_full_state_neighbors (summary r) = 2
    /\ neighbors r = map neighbor_of rpc
    /\ full_state_neighbors (summary r) = count_full (neighbors r).
Proof.
  do 2 eexists.
  split; [reflexivity|]. split; [reflexivity|].
  split; [reflexivity|]. split; [reflexivity|]. split; [reflexivity|].
  apply (ospf_report_mirrors_reply three_neighbors "master" None
           "2025-05-07T10:15:30"); reflexivity.
Defined.

Lemma areas_of_listed_neighbors_witness :
  exists r,
    get_ospf_neighbors three_neighbors "master" None "2025-05-07T10:15:30"
    = Ok r
    /\ areas (summary r) = [Some "0.0.0.0"; None]
    /\ NoDup (areas (summary r))
    /\ forall a,
         In a (areas (summary r)) <-> In a (map Juniper.area (neighbors r)).
Proof.
  eexists. split; [reflexivity|]. split; [reflexivity|].
  apply (areas_of_listed_neighbors three_neighbors "master" None
           "2025-05-07T10:15:30"). reflexivity.
Defined.


End JuniperReportFacts.

(* ================================================================== *)
(** * The output of the DNS check *)
(* ================================================================== *)

Module DnsOutputFacts.
Import Dns DnsSpec.

(** X17.  What the DNS check prints.  For a name that resolves: the
    line "DNS record for <name> exists." and, unless the address is the
    empty string, the line "IP address: <address>".  For a name the
    resolver rejects with [gaierror]: the line "DNS record for <name> does
    not exist.".  In both cases nothing goes to the diagnostic stream.  For
    any other exception nothing is printed on the primary stream, and the
    diagnostic stream holds the line "Error: <message>". *)
Theorem dns_output_lines (gethostbyname : Resolver) (hostname : string) :
  let p := script gethostbyname hostname in
  (forall ip, gethostbyname hostname = Ok ip ->
     stdout p
     = ("DNS record for " ++ hostname ++ " exists.")
       :: (if String.eqb ip "" then [] else ["IP address: " ++ ip])
     /\ stderr p = [])
  /\ (forall e, gethostbyname hostname = Raise e ->
        exn_class e = GaiError ->
        stdout p = ["DNS record for " ++ hostname ++ " does not exist."]
        /\ stderr p = [])
  /\ (forall e, gethostbyname hostname = Raise e ->
        exn_class e <> GaiError ->
        stdout p = [] /\ stderr p = ["Error: " ++ exn_str e]).
Proof.
  unfold script, main, check_dns_record_exists, bind, is_instance.
  destruct (gethostbyname hostname) as [ip|e]; cbn.
  - split; [|split; discriminate].
    intros ip' E. injection E as <-. now destruct (String.eqb ip "").
  - split; [discriminate|]. split.
    + intros e' E K. injection E as <-. rewrite K. cbn. auto.
    + intros e' E K. injection E as <-.
      destruct (exn_class e); cbn; auto; contradiction.
Qed.

Lemma dns_output_lines_witness :
  let resolver := knows "example.org" "93.184.216.34" in
  (stdout (script resolver "example.org")
   = ["DNS record for example.org exists."; "IP address: 93.184.216.34"]
   /\ stderr (script resolver "example.org") = [])
  /\ (stdout (script resolver "nowhere.invalid")
      = ["DNS record for nowhere.invalid does not exist."]
      /\ stderr (script resolver "nowhere.invalid") = []).
Proof.
  intros resolver. split.
  - destruct (dns_output_lines resolver "example.org") as [A _].
    apply (A "93.184.216.34"). reflexivity.
  - destruct (dns_output_lines resolver "nowhere.invalid") as (_ & B & _).
    apply (B (mk_exn GaiError "[Errno -2] Name or service not known"));
      reflexivity.
Defined.

End DnsOutputFacts.

(* ================================================================== *)
(** * One document per run *)
(* ================================================================== *)

Module ProtocolFacts.
Import Protocol.


End ProtocolFacts.
